(** * pynacollada / neurotutorials : the process-wide [Config] store

    A shallow embedding of the two [settings.py] modules of the repository:

    - [NeuroTutorials] embeds [neurotutorials/settings.py] (a single key
      [data_path], validated by [os.path.exists] on the submitted mapping);
    - [Pynacollada] embeds [pynacollada/settings.py] (keys [data_dir] and
      [unique_data_dir], validated per key by the [_validate_conf] decorator
      around [__setitem__]; [update] is the one inherited from
      [collections.abc.MutableMapping]).

    Python objects with identity (the [Config] instance) live in a heap and
    are named by locations; the class attribute [Config._instance] is a cell
    of the process state.  Values submitted to the store are immutable trees:
    a submitted dictionary is taken to be an object of its own, not one that
    the store already holds, and what a call does to the submitted object
    itself is not represented.  The one dictionary that the code shares is
    the [unique_data_dir] dictionary of the module-level [defaults] of
    Variant B, which a store built from the defaults holds as well: [reset]
    therefore takes what [defaults] holds when it is called as an argument.
    Dictionaries keep their insertion order.  Exceptions are outcomes, and
    the state reached when an exception is raised is kept, so that what a
    failed call leaves behind can be stated. *)

From Stdlib Require Import ZArith.
From stdpp Require Import base option strings list gmap pretty.

Set Warnings "-register-all".

Open Scope string_scope.
Open Scope list_scope.

(** ** Python values *)

(** Dictionary keys of the model: [str] and [int] objects. *)
Inductive pykey : Type :=
| KStr (s : string)
| KInt (n : Z).

(** [VPath s] is an [os.PathLike] object that is not a [str], and whose
    [str()] is [s]. Numbers are integers. *)
Inductive pyval : Type :=
| VNone
| VBool (b : bool)
| VInt (n : Z)
| VStr (s : string)
| VPath (s : string)
| VList (l : list pyval)
| VDict (d : list (pykey * pyval)).

Abbreviation dict := (list (pykey * pyval)).

#[global] Instance pykey_eq_dec : EqDecision pykey.
Proof. solve_decision. Defined.

Definition key_val (k : pykey) : pyval :=
  match k with
  | KStr s => VStr s
  | KInt n => VInt n
  end.

Definition isinstance_str (v : pyval) : bool :=
  match v with VStr _ => true | _ => false end.

Definition isinstance_PathLike (v : pyval) : bool :=
  match v with VPath _ => true | _ => false end.

Definition isinstance_dict (v : pyval) : bool :=
  match v with VDict _ => true | _ => false end.

(** [str(v)] for the two kinds of value the code applies it to. *)
Definition py_str (v : pyval) : string :=
  match v with
  | VStr s | VPath s => s
  | _ => EmptyString
  end.

(** ** Dictionaries *)

Definition keys (d : dict) : list pykey := d.*1.

(** [d[k]], [None] standing for [KeyError]. *)
Fixpoint dict_get (d : dict) (k : pykey) : option pyval :=
  match d with
  | [] => None
  | (k', v) :: d' => if decide (k = k') then Some v else dict_get d' k
  end.

(** [d[k] = v]: an existing key keeps its position, a new one goes last. *)
Fixpoint dict_set (d : dict) (k : pykey) (v : pyval) : dict :=
  match d with
  | [] => [(k, v)]
  | (k', v') :: d' =>
      if decide (k = k') then (k', v) :: d' else (k', v') :: dict_set d' k v
  end.

(** [del d[k]] on a key that is present. *)
Fixpoint dict_del (d : dict) (k : pykey) : dict :=
  match d with
  | [] => []
  | (k', v') :: d' => if decide (k = k') then d' else (k', v') :: dict_del d' k
  end.

(** [d.update(other)] for a dictionary [other]. *)
Definition dict_update (d other : dict) : dict :=
  foldl (fun acc kv => dict_set acc kv.1 kv.2) d other.

(** Well-formed dictionaries have no repeated key. *)
Definition dict_wf (d : dict) : Prop := NoDup (keys d).

(** ** Exceptions and outcomes *)

Inductive exn : Type :=
| TypeError
| ValueError
| KeyError
| OSError
| JSONDecodeError
| OverflowError.

#[global] Instance exn_eq_dec : EqDecision exn.
Proof. solve_decision. Defined.

(** The specification's [InvalidConfig]: what the validation code raises. *)
Definition InvalidConfig (e : exn) : bool :=
  match e with
  | TypeError | ValueError => true
  | _ => false
  end.

Inductive result (A : Type) : Type :=
| Ok (a : A)
| Raise (e : exn).
Arguments Ok {A} a.
Arguments Raise {A} e.

Definition mapM {A B : Type} (f : A -> result B) : list A -> result (list B) :=
  fix go (l : list A) : result (list B) :=
    match l with
    | [] => Ok []
    | x :: r =>
        match f x with
        | Ok y => match go r with Ok ys => Ok (y :: ys) | Raise e => Raise e end
        | Raise e => Raise e
        end
    end.

(** ** JSON documents, [json.dump] and [json.load] *)

Inductive json : Type :=
| JNull
| JBool (b : bool)
| JNum (n : Z)
| JStr (s : string)
| JArr (l : list json)
| JObj (m : list (string * json)).

(** The key of a JSON object written for a dictionary key. *)
Definition key_json (k : pykey) : string :=
  match k with
  | KStr s => s
  | KInt n => pretty n
  end.

(** The document [json.dump] writes for a value; a path-like object is not
    serializable. *)
Fixpoint to_json (v : pyval) : result json :=
  match v with
  | VNone => Ok JNull
  | VBool b => Ok (JBool b)
  | VInt n => Ok (JNum n)
  | VStr s => Ok (JStr s)
  | VPath _ => Raise TypeError
  | VList l =>
      match mapM to_json l with
      | Ok js => Ok (JArr js)
      | Raise e => Raise e
      end
  | VDict d =>
      match mapM (fun kv => match to_json kv.2 with
                            | Ok j => Ok (key_json kv.1, j)
                            | Raise e => Raise e
                            end) d with
      | Ok m => Ok (JObj m)
      | Raise e => Raise e
      end
  end.

(** The value [json.load] builds from a document: among repeated names of an
    object the last value is kept, at the place of the first. *)
Fixpoint of_json (j : json) : pyval :=
  match j with
  | JNull => VNone
  | JBool b => VBool b
  | JNum n => VInt n
  | JStr s => VStr s
  | JArr l => VList (of_json <$> l)
  | JObj m =>
      VDict (foldl (fun acc kv => dict_set acc (KStr kv.1) kv.2) []
               ((fun kv => (kv.1, of_json kv.2)) <$> m))
  end.

(** ** The file system *)

(** What a regular file holds: the text of a JSON document, or text that
    [json.load] does not parse. *)
Inductive file : Type :=
| Document (j : json)
| Unparseable.

(** Path strings name files; two different strings name different files. *)
Record filesystem : Type := Filesystem {
  fs_file : string -> option file;   (* regular files *)
  fs_isdir : string -> bool;         (* directories *)
  fs_readable : string -> bool;      (* [open(p, "r")] is permitted *)
  fs_writable : string -> bool;      (* [open(p, "w")] is permitted *)
  fs_fd : Z -> bool                  (* open file descriptors *)
}.

Definition path_exists (f : filesystem) (p : string) : bool :=
  fs_isdir f p || bool_decide (is_Some (fs_file f p)).

Definition fs_write (f : filesystem) (p : string) (c : file) : filesystem :=
  {| fs_file := fun q => if decide (q = p) then Some c else fs_file f q;
     fs_isdir := fs_isdir f;
     fs_readable := fs_readable f;
     fs_writable := fs_writable f;
     fs_fd := fs_fd f |}.

(** The integers that fit a C [int], which a file descriptor has to. *)
Definition c_int (n : Z) : bool :=
  ((-2147483648 <=? n) && (n <=? 2147483647))%Z.

(** [os.path.exists(v)]: [os.stat] takes a path or a file descriptor, its
    [OSError] is turned into [False], its [TypeError] and the
    [OverflowError] for an integer that is no C [int] propagate. *)
Definition os_path_exists (f : filesystem) (v : pyval) : result bool :=
  match v with
  | VStr p | VPath p => Ok (path_exists f p)
  | VInt n => if c_int n then Ok (fs_fd f n) else Raise OverflowError
  | VBool b => Ok (fs_fd f (if b then 1 else 0)%Z)
  | VNone | VList _ | VDict _ => Raise TypeError
  end.

(** [os.path.join(a, b)] for a relative [b], POSIX flavour. *)
Definition os_path_join (a b : string) : string :=
  match a with
  | EmptyString => b
  | _ => if bool_decide (String.substring (String.length a - 1) 1 a = "/")
         then a +:+ b else a +:+ "/" +:+ b
  end.

(** ** The process state *)

Definition loc := positive.

Record process : Type := Process {
  cls_instance : option loc;     (* [Config._instance] *)
  heap : gmap loc dict;          (* the [__dict__] of every object *)
  fs : filesystem
}.

(** [self.__dict__]; an instance without one gets an empty one on access. *)
Definition get_dict (self : loc) (p : process) : dict :=
  default [] (heap p !! self).

Definition set_dict (self : loc) (d : dict) (p : process) : process :=
  {| cls_instance := cls_instance p;
     heap := <[self := d]> (heap p);
     fs := fs p |}.

(** Computations that read and write the process state and may raise. *)
Definition M (A : Type) : Type := process -> result A * process.

Definition ret {A : Type} (a : A) : M A := fun p => (Ok a, p).

Definition raise {A : Type} (e : exn) : M A := fun p => (Raise e, p).

Definition bind {A B : Type} (c : M A) (k : A -> M B) : M B :=
  fun p =>
    match c p with
    | (Ok a, p') => k a p'
    | (Raise e, p') => (Raise e, p')
    end.

Definition lift {A : Type} (r : result A) : M A := fun p => (r, p).

Declare Scope py_scope.
Delimit Scope py_scope with py.
Notation "x <- c1 ;; c2" := (bind c1 (fun x => c2))
  (at level 100, c1 at next level, right associativity) : py_scope.
Notation "c1 ;;; c2" := (bind c1 (fun _ => c2))
  (at level 100, right associativity) : py_scope.
Open Scope py_scope.

(** [open(p, "r")] followed by reading the whole file. *)
Definition open_read (p : string) : M file :=
  fun st =>
    if fs_isdir (fs st) p then (Raise OSError, st)
    else match fs_file (fs st) p with
         | Some c => if fs_readable (fs st) p then (Ok c, st) else (Raise OSError, st)
         | None => (Raise OSError, st)
         end.

(** [json.load(f)]. *)
Definition json_load (c : file) : M pyval :=
  match c with
  | Document j => ret (of_json j)
  | Unparseable => raise JSONDecodeError
  end.

(** [with open(p, "w") as f: json.dump(d, f, indent=4)]: the file is
    truncated when it is opened, and the text is written piece by piece, so a
    value that cannot be serialized leaves an unfinished text behind. *)
Definition open_write_dump (p : string) (d : dict) : M unit :=
  fun st =>
    if fs_isdir (fs st) p || negb (fs_writable (fs st) p) then (Raise OSError, st)
    else match to_json (VDict d) with
         | Ok j =>
             (Ok tt, {| cls_instance := cls_instance st; heap := heap st;
                        fs := fs_write (fs st) p (Document j) |})
         | Raise e =>
             (Raise e, {| cls_instance := cls_instance st; heap := heap st;
                          fs := fs_write (fs st) p Unparseable |})
         end.

(** [super().__new__(cls)]: a new object, with an empty [__dict__]. *)
Definition object_new : M loc :=
  fun st =>
    let l := fresh (dom (heap st)) in
    (Ok l, {| cls_instance := cls_instance st;
              heap := <[l := []]> (heap st);
              fs := fs st |}).

Definition set_instance (l : loc) : M unit :=
  fun st => (Ok tt, {| cls_instance := Some l; heap := heap st; fs := fs st |}).

(** ** Variant A: [neurotutorials/settings.py] *)

Module NeuroTutorials.

Definition LOCALCONFIG : string := "nsl_tutorials_conf.json".

(** The module-level [defaults], computed when the module is imported in the
    working directory [cwd]. *)
Definition data_path (cwd : string) : string := os_path_join cwd "data".

Definition defaults (f : filesystem) (cwd : string) : pyval :=
  VDict [(KStr "data_path",
          VStr (if path_exists f (data_path cwd) then data_path cwd else cwd))].

Definition _validate_conf (conf : pyval) : M unit :=
  match conf with
  | VDict d =>
      match dict_get d (KStr "data_path") with
      | Some v =>
          fun st =>
            match os_path_exists (fs st) v with
            | Ok true => (Ok tt, st)
            | Ok false => (Raise ValueError, st)
            | Raise e => (Raise e, st)
            end
      | None => raise KeyError
      end
  | _ => raise ValueError
  end.

(** [self.__dict__.update(conf)]; [conf] is a dictionary whenever the
    validation before it has returned. *)
Definition dict_update_self (self : loc) (conf : pyval) : M unit :=
  match conf with
  | VDict d =>
      fun st => (Ok tt, set_dict self (dict_update (get_dict self st) d) st)
  | _ => raise TypeError
  end.

Definition update (self : loc) (conf : pyval) : M unit :=
  _validate_conf conf ;;;
  dict_update_self self conf.

Definition __setitem__ (self : loc) (key : pykey) (value : pyval) : M unit :=
  update self (VDict [(key, value)]).

Definition __getitem__ (self : loc) (key : pykey) : M pyval :=
  fun st =>
    match dict_get (get_dict self st) key with
    | Some v => (Ok v, st)
    | None => (Raise KeyError, st)
    end.

Definition __new__ (conf_file : string) (defaults : pyval) : M loc :=
  fun st =>
    match cls_instance st with
    | None =>
        (l <- object_new ;;
         set_instance l ;;;
         conf <- (fun st' =>
                    if path_exists (fs st') conf_file
                    then (c <- open_read conf_file ;; json_load c) st'
                    else (Ok defaults, st')) ;;
         update l conf ;;;
         ret l) st
    | Some l => (Ok l, st)
    end.

Definition save (self : loc) (conf_file : string) : M unit :=
  fun st => open_write_dump conf_file (get_dict self st) st.

Definition load (self : loc) (conf_file : string) : M unit :=
  c <- open_read conf_file ;;
  conf <- json_load c ;;
  update self conf.

End NeuroTutorials.

(** ** Variant B: [pynacollada/settings.py] *)

Module Pynacollada.

Definition LOCAL_CONFIG : string := "pynacollada_conf.json".

Section registry.

(** [DATA_SETS] are the keys of the dataset registry, and [DEFAULT_DIR] the
    cache directory that [pooch.os_cache] names: both come from outside the
    module. *)
Variable DATA_SETS : list pykey.
Variable DEFAULT_DIR : string.

(** The module-level [defaults], as the module defines it. *)
Definition defaults : pyval :=
  VDict [(KStr "data_dir", VStr DEFAULT_DIR); (KStr "unique_data_dir", VDict [])].

(** The loop over [value.items()] of the [unique_data_dir] case; [value] is
    the dictionary being checked, which the loop updates in place. *)
Fixpoint validate_items (items : dict) (value : dict) : result dict :=
  match items with
  | [] => Ok value
  | (k, v) :: rest =>
      if bool_decide (k ∈ DATA_SETS) then
        let value' :=
          if isinstance_PathLike v then dict_set value k (VStr (py_str v))
          else value in
        match dict_get value' k with
        | Some x =>
            if isinstance_str x then validate_items rest value'
            else Raise TypeError
        | None => Raise KeyError
        end
      else Raise ValueError
  end.

(** The decorator. [func] is called once [key] is known to be a [str]. *)
Definition _validate_conf (func : loc -> string -> pyval -> M unit)
    (self : loc) (key value : pyval) : M unit :=
  match key with
  | VStr k =>
      if decide (k = "data_dir") then
        let value := if isinstance_PathLike value then VStr (py_str value)
                     else value in
        if isinstance_str value then func self k value else raise TypeError
      else if decide (k = "unique_data_dir") then
        match value with
        | VDict d =>
            match validate_items d d with
            | Ok d' => func self k (VDict d')
            | Raise e => raise e
            end
        | _ => raise TypeError
        end
      else func self k value
  | _ => raise TypeError
  end.

Definition __setitem__ : loc -> pyval -> pyval -> M unit :=
  _validate_conf
    (fun self key value st =>
       (Ok tt, set_dict self (dict_set (get_dict self st) (KStr key) value) st)).

Definition __getitem__ (self : loc) (key : pykey) : M pyval :=
  fun st =>
    match dict_get (get_dict self st) key with
    | Some v => (Ok v, st)
    | None => (Raise KeyError, st)
    end.

Definition __delitem__ (self : loc) (key : pykey) : M unit :=
  fun st =>
    match dict_get (get_dict self st) key with
    | Some _ => (Ok tt, set_dict self (dict_del (get_dict self st) key) st)
    | None => (Raise KeyError, st)
    end.

Definition __iter__ (self : loc) : M (list pykey) :=
  fun st => (Ok (keys (get_dict self st)), st).

Definition __len__ (self : loc) : M nat :=
  fun st => (Ok (length (get_dict self st)), st).

(** *** [MutableMapping.update], which [Config] inherits *)

(** [key, value = e] *)
Definition unpack_pair (e : pyval) : result (pyval * pyval) :=
  match e with
  | VList [a; b] => Ok (a, b)
  | VList _ => Raise ValueError
  | VStr (String a (String b EmptyString)) =>
      Ok (VStr (String a EmptyString), VStr (String b EmptyString))
  | VStr _ => Raise ValueError
  | VDict [(k1, _); (k2, _)] => Ok (key_val k1, key_val k2)
  | VDict _ => Raise ValueError
  | VNone | VBool _ | VInt _ | VPath _ => Raise TypeError
  end.

(** [for key in other: self[key] = other[key]] *)
Fixpoint set_items (self : loc) (items : list (pyval * pyval)) : M unit :=
  match items with
  | [] => ret tt
  | (k, v) :: rest => __setitem__ self k v ;;; set_items self rest
  end.

(** [for key, value in other: self[key] = value] *)
Fixpoint set_pairs (self : loc) (other : list pyval) : M unit :=
  match other with
  | [] => ret tt
  | e :: rest =>
      kv <- lift (unpack_pair e) ;;
      __setitem__ self kv.1 kv.2 ;;;
      set_pairs self rest
  end.

Definition dict_items (d : dict) : list (pyval * pyval) :=
  (fun kv => (key_val kv.1, kv.2)) <$> d.

Definition kwds_items (kwds : list (string * pyval)) : list (pyval * pyval) :=
  (fun kv => (VStr kv.1, kv.2)) <$> kwds.

(** [update(self, other=(), /, **kwds)]: a mapping is walked by its keys,
    anything else as an iterable of pairs. A string yields its characters,
    none of which unpacks into a pair. *)
Definition update (self : loc) (other : pyval) (kwds : list (string * pyval))
    : M unit :=
  match other with
  | VDict d => set_items self (dict_items d)
  | VList l => set_pairs self l
  | VStr EmptyString => ret tt
  | VStr _ => raise ValueError
  | VNone | VBool _ | VInt _ | VPath _ => raise TypeError
  end ;;;
  set_items self (kwds_items kwds).

Definition __new__ (conf_file : string) (defaults : pyval) : M loc :=
  fun st =>
    match cls_instance st with
    | None =>
        (l <- object_new ;;
         set_instance l ;;;
         update l defaults [] ;;;
         (fun st' =>
            if path_exists (fs st') conf_file
            then (c <- open_read conf_file ;;
                  conf <- json_load c ;;
                  update l conf []) st'
            else (Ok tt, st')) ;;;
         ret l) st
    | Some l => (Ok l, st)
    end.

Definition save (self : loc) (conf_file : string) : M unit :=
  fun st => open_write_dump conf_file (get_dict self st) st.

Definition load (self : loc) (conf_file : string) : M unit :=
  c <- open_read conf_file ;;
  conf <- json_load c ;;
  update self conf [].

(** [del self.__dict__], then the validated [update] with the module-level
    [defaults]. The argument [defaults] is what that global holds when
    [reset] is called. It need not be what the module defined: the
    dictionary under its ["unique_data_dir"] is the very object that a store
    built from the defaults holds (item assignment stores the object it is
    given), so an assignment [config["unique_data_dir"][k] = v] made in that
    dictionary shows in [defaults] too. *)
Definition reset (defaults : pyval) (self : loc) : M unit :=
  (fun st => (Ok tt, set_dict self [] st)) ;;;
  update self defaults [].

End registry.

End Pynacollada.

(** ** Auxiliary notions for the statements *)

(** A computation that leaves [Config._instance] as it finds it. *)
Definition keeps_instance {A : Type} (c : M A) : Prop :=
  forall st, cls_instance (c st).2 = cls_instance st.


(** A run of constructions [Config(conf_file, defaults)], one after the
    other, with what each of them gave. *)
Fixpoint construct_all (new : string -> pyval -> M loc)
    (calls : list (string * pyval)) (st : process)
    : list (result loc) * process :=
  match calls with
  | [] => ([], st)
  | (conf_file, dflt) :: rest =>
      let r := new conf_file dflt st in
      let rs := construct_all new rest r.2 in
      (r.1 :: rs.1, rs.2)
  end.

(** What the decorator of Variant B makes of a value submitted under the
    string key [k]: the value that gets stored, or the exception. *)
Definition checked_value (DATA_SETS : list pykey) (k : string) (value : pyval)
    : result pyval :=
  if decide (k = "data_dir") then
    match value with
    | VStr s | VPath s => Ok (VStr s)
    | _ => Raise TypeError
    end
  else if decide (k = "unique_data_dir") then
    match value with
    | VDict d =>
        match Pynacollada.validate_items DATA_SETS d d with
        | Ok d' => Ok (VDict d')
        | Raise e => Raise e
        end
    | _ => Raise TypeError
    end
  else Ok value.

(** An entry of a submitted [unique_data_dir] that the checks let through:
    a recognized name with a string or a path-like value. *)
Definition entry_ok (DATA_SETS : list pykey) (kv : pykey * pyval) : bool :=
  bool_decide (kv.1 ∈ DATA_SETS)
  && (isinstance_str kv.2 || isinstance_PathLike kv.2).

(** The string form of a path-like value; anything else is left alone. *)
Definition normalize (v : pyval) : pyval :=
  if isinstance_PathLike v then VStr (py_str v) else v.

Definition normalize_dict (d : dict) : dict :=
  (fun kv => (kv.1, normalize kv.2)) <$> d.

(** What the checks of Variant B make of a whole dictionary, entry by entry:
    the entries that get stored, or the first exception. *)
Definition checked_entry (DATA_SETS : list pykey) (kv : pykey * pyval)
    : result (pykey * pyval) :=
  match kv.1 with
  | KStr k =>
      match checked_value DATA_SETS k kv.2 with
      | Ok v => Ok (kv.1, v)
      | Raise e => Raise e
      end
  | KInt _ => Raise TypeError
  end.

Definition checked_dict (DATA_SETS : list pykey) (d : dict) : result dict :=
  mapM (checked_entry DATA_SETS) d.




(** The singleton property of a [Config] class with constructor [new]:
    after a first construction, a run of further constructions gives the
    instance that the class holds every time and leaves the process as it
    is; and in any later state, a reference obtained by constructing again
    reads what an item assignment through the instance has written. *)
Definition singleton {K : Type} (new : string -> pyval -> M loc)
    (setitem : loc -> K -> pyval -> M unit)
    (getitem : loc -> pykey -> M pyval)
    (st : process) (first : string * pyval) (calls : list (string * pyval))
    : Prop :=
  let r := new first.1 first.2 st in
  exists l,
    cls_instance r.2 = Some l
    /\ (r.1 = Ok l \/ exists e, r.1 = Raise e)
    /\ construct_all new calls r.2 = ((fun _ => Ok l) <$> calls, r.2)
    /\ forall st1 key value conf_file dflt k,
         cls_instance st1 = Some l ->
         let st2 := (setitem l key value st1).2 in
         (l' <- new conf_file dflt ;; getitem l' k) st2 = getitem l k st2.

(** A submitted value is well formed when, being a dictionary, it has no
    repeated key. *)
Definition value_wf (v : pyval) : Prop :=
  match v with
  | VDict d => dict_wf d
  | _ => True
  end.

(** ** Processes and file systems used in the examples *)

(** A process that has not constructed a [Config] yet. *)
Definition fresh_process (f : filesystem) : process :=
  {| cls_instance := None; heap := ∅; fs := f |}.

(** Directories [/data] and [/home/user], and a regular file
    [/data/notes.txt]. *)
Definition fs_demo : filesystem :=
  {| fs_file := fun p =>
       if decide (p = "/data/notes.txt") then Some Unparseable else None;
     fs_isdir := fun p =>
       bool_decide (p = "/data") || bool_decide (p = "/home/user");
     fs_readable := fun _ => true;
     fs_writable := fun _ => true;
     fs_fd := fun _ => false |}.

(** Variant A after [Config()] in [/home/user], where [/home/user/data] does
    not exist: the store holds [{"data_path": "/home/user"}]. *)
Definition demo_A : process :=
  (NeuroTutorials.__new__ NeuroTutorials.LOCALCONFIG
     (NeuroTutorials.defaults fs_demo "/home/user") (fresh_process fs_demo)).2.

(** Variant B after [Config()], with datasets [A] and [B] registered and
    [/cache] as the cache directory. *)
Definition demo_B : process :=
  (Pynacollada.__new__ [KStr "A"; KStr "B"] Pynacollada.LOCAL_CONFIG
     (Pynacollada.defaults "/cache") (fresh_process fs_demo)).2.


(** ** Further notions for the statements *)

(** A method called on [self] that leaves [Config._instance], the file
    system and every other object as it finds them. *)
Definition touches_only {A : Type} (self : loc) (c : M A) : Prop :=
  forall st,
    cls_instance (c st).2 = cls_instance st
    /\ fs (c st).2 = fs st
    /\ forall l, l <> self -> heap (c st).2 !! l = heap st !! l.

(** A method that keeps a property of the store of [self], whether it
    returns or raises. *)
Definition preserves {A : Type} (P : dict -> Prop) (self : loc) (c : M A)
    : Prop :=
  forall st, P (get_dict self st) -> P (get_dict self (c st).2).

(** The keys of a store are strings, none of them repeated. *)
Definition str_keys (d : dict) : Prop :=
  dict_wf d /\ Forall (fun k => exists s, k = KStr s) (keys d).

(** Values all of whose dictionaries, at any depth, have no repeated key. *)
Fixpoint wf_val (v : pyval) : bool :=
  match v with
  | VList l => forallb wf_val l
  | VDict d => bool_decide (NoDup d.*1) && forallb (fun kv => wf_val kv.2) d
  | _ => true
  end.

(** The schema of Variant B on the two recognized keys: [data_dir], when
    present, holds a string, and [unique_data_dir], when present, holds a
    dictionary from registered dataset names to strings. *)
Definition schema_ok (DATA_SETS : list pykey) (d : dict) : Prop :=
  (forall v, dict_get d (KStr "data_dir") = Some v -> isinstance_str v = true)
  /\ (forall v,
        dict_get d (KStr "unique_data_dir") = Some v ->
        exists u,
          v = VDict u
          /\ Forall (fun kv => kv.1 ∈ DATA_SETS /\ isinstance_str kv.2 = true)
               u).

(** A value that has a path-like object in it, at any depth. *)
Fixpoint has_path (v : pyval) : bool :=
  match v with
  | VPath _ => true
  | VList l => existsb has_path l
  | VDict d => existsb (fun kv => has_path kv.2) d
  | _ => false
  end.

(** * Properties *)

Arguments Pynacollada.__setitem__ : simpl never.
Arguments Pynacollada.update : simpl never.
Arguments NeuroTutorials.update : simpl never.

(** ** Dictionaries *)

Lemma dict_get_set_eq (d : dict) (k : pykey) (v : pyval) :
  dict_get (dict_set d k v) k = Some v.
Proof.
  induction d as [|[k' v'] d IH]; simpl.
  - by rewrite decide_True.
  - destruct (decide (k = k')) as [->|Hne]; simpl.
    + by rewrite decide_True.
    + by rewrite decide_False.
Qed.

Lemma dict_get_set_ne (d : dict) (k k' : pykey) (v : pyval) :
  k ≠ k' -> dict_get (dict_set d k v) k' = dict_get d k'.
Proof.
  intros Hne. induction d as [|[k0 v0] d IH]; simpl.
  - by rewrite decide_False.
  - destruct (decide (k = k0)) as [->|Hk]; simpl.
    + by rewrite !decide_False.
    + destruct (decide (k' = k0)); [done|apply IH].
Qed.

Lemma dict_get_None (d : dict) (k : pykey) :
  dict_get d k = None <-> k ∉ keys d.
Proof.
  unfold keys. induction d as [|[k' v'] d IH]; simpl.
  - split; [intros _; apply not_elem_of_nil|done].
  - rewrite not_elem_of_cons. destruct (decide (k = k')) as [->|Hne].
    + split; [done|]. intros [? _]. done.
    + rewrite IH. tauto.
Qed.

Lemma dict_get_Some_elem (d : dict) (k : pykey) (v : pyval) :
  dict_get d k = Some v -> (k, v) ∈ d.
Proof.
  induction d as [|[k' v'] d IH]; simpl; [done|].
  destruct (decide (k = k')) as [->|Hne].
  - intros [= ->]. apply list_elem_of_here.
  - intros H. apply list_elem_of_further, IH, H.
Qed.

Lemma dict_get_elem (d : dict) (k : pykey) (v : pyval) :
  dict_wf d -> (k, v) ∈ d -> dict_get d k = Some v.
Proof.
  unfold dict_wf, keys. induction d as [|[k' v'] d IH]; simpl.
  - intros _ H. by apply elem_of_nil in H.
  - intros Hnd H. apply NoDup_cons in Hnd as [Hnotin Hnd].
    apply elem_of_cons in H as [[= -> ->]|H].
    + by rewrite decide_True.
    + rewrite decide_False; [by apply IH|].
      intros ->. apply Hnotin. apply list_elem_of_fmap. by exists (k', v).
Qed.

Lemma keys_dict_set_in (d : dict) (k : pykey) (v : pyval) :
  k ∈ keys d -> keys (dict_set d k v) = keys d.
Proof.
  unfold keys. induction d as [|[k' v'] d IH]; simpl.
  - intros H. by apply elem_of_nil in H.
  - intros H. destruct (decide (k = k')) as [->|Hne]; simpl; [done|].
    f_equal. apply IH. apply elem_of_cons in H as [?|?]; done.
Qed.

Lemma dict_set_notin (d : dict) (k : pykey) (v : pyval) :
  k ∉ keys d -> dict_set d k v = d ++ [(k, v)].
Proof.
  unfold keys. induction d as [|[k' v'] d IH]; simpl; [done|].
  intros H. apply not_elem_of_cons in H as [Hne H].
  rewrite decide_False by done. by rewrite IH.
Qed.

Lemma dict_set_wf (d : dict) (k : pykey) (v : pyval) :
  dict_wf d -> dict_wf (dict_set d k v).
Proof.
  intros Hwf. unfold dict_wf. destruct (decide (k ∈ keys d)) as [Hin|Hnotin].
  - by rewrite keys_dict_set_in.
  - rewrite dict_set_notin by done. unfold keys. rewrite fmap_app. simpl.
    apply NoDup_app. split; [done|]. split; [|apply NoDup_singleton].
    intros x Hx Hx'. apply list_elem_of_singleton in Hx'. by subst.
Qed.

Lemma dict_update_cons (d other : dict) (k : pykey) (v : pyval) :
  dict_update d ((k, v) :: other) = dict_update (dict_set d k v) other.
Proof. done. Qed.



(** ** The process state *)

Lemma get_set_dict (self : loc) (d : dict) (st : process) :
  get_dict self (set_dict self d st) = d.
Proof. unfold get_dict, set_dict. simpl. by rewrite lookup_insert_eq. Qed.

Lemma get_set_dict_ne (self l : loc) (d : dict) (st : process) :
  self ≠ l -> get_dict l (set_dict self d st) = get_dict l st.
Proof.
  intros Hne. unfold get_dict, set_dict. simpl. by rewrite lookup_insert_ne.
Qed.

Lemma set_set_dict (self : loc) (d d' : dict) (st : process) :
  set_dict self d (set_dict self d' st) = set_dict self d st.
Proof. unfold set_dict. simpl. by rewrite insert_insert_eq. Qed.

Lemma keeps_instance_bind {A B : Type} (c : M A) (k : A -> M B) :
  keeps_instance c -> (forall a, keeps_instance (k a)) ->
  keeps_instance (bind c k).
Proof.
  intros Hc Hk st. unfold bind. specialize (Hc st).
  destruct (c st) as [[a|e] st']; simpl in *; [|done].
  by rewrite Hk.
Qed.

Lemma keeps_instance_ret {A : Type} (a : A) : keeps_instance (ret a).
Proof. done. Qed.

Lemma keeps_instance_raise {A : Type} (e : exn) : keeps_instance (@raise A e).
Proof. done. Qed.

Lemma keeps_instance_lift {A : Type} (r : result A) : keeps_instance (lift r).
Proof. done. Qed.

Lemma open_read_state (p : string) (st : process) : (open_read p st).2 = st.
Proof.
  unfold open_read. destruct (fs_isdir _ _); [done|].
  destruct (fs_file _ _); [|done]. by destruct (fs_readable _ _).
Qed.

Lemma json_load_state (c : file) (st : process) : (json_load c st).2 = st.
Proof. by destruct c. Qed.

Lemma keeps_instance_open_read (p : string) : keeps_instance (open_read p).
Proof. intros st. by rewrite open_read_state. Qed.

Lemma keeps_instance_json_load (c : file) : keeps_instance (json_load c).
Proof. intros st. by rewrite json_load_state. Qed.

Lemma keeps_instance_dump (p : string) (d : dict) :
  keeps_instance (open_write_dump p d).
Proof.
  intros st. unfold open_write_dump.
  destruct (_ || _); [done|]. by destruct (to_json _).
Qed.

Create HintDb instance.

#[global] Hint Resolve keeps_instance_ret keeps_instance_raise
  keeps_instance_lift keeps_instance_open_read keeps_instance_json_load
  keeps_instance_dump : instance.

Lemma bind_ret_tt (c : M unit) (st : process) :
  bind c (fun _ => ret tt) st = c st.
Proof. unfold bind, ret. by destruct (c st) as [[[]|e] st']. Qed.

Lemma forallb_elem {A : Type} (f : A -> bool) (l : list A) (x : A) :
  forallb f l = true -> x ∈ l -> f x = true.
Proof.
  intros H Hin. apply list_elem_of_In in Hin.
  by apply (proj1 (forallb_forall f l) H).
Qed.

Lemma forallb_false_elem {A : Type} (f : A -> bool) (l : list A) :
  forallb f l = false -> exists x, x ∈ l /\ f x = false.
Proof.
  induction l as [|x l IH]; simpl; [done|].
  destruct (f x) eqn:Hx; simpl.
  - intros H. destruct (IH H) as (y & Hy & Hfy).
    exists y. split; [by apply list_elem_of_further|done].
  - intros _. exists x. split; [apply list_elem_of_here|done].
Qed.

Lemma dict_set_app_r (pre d : dict) (k : pykey) (v : pyval) :
  k ∉ keys pre -> dict_set (pre ++ d) k v = pre ++ dict_set d k v.
Proof.
  unfold keys. induction pre as [|[k' v'] pre IH]; simpl; [done|].
  intros H. apply not_elem_of_cons in H as [Hne H].
  rewrite decide_False by done. by rewrite IH.
Qed.

Lemma dict_get_app_r (pre d : dict) (k : pykey) :
  k ∉ keys pre -> dict_get (pre ++ d) k = dict_get d k.
Proof.
  unfold keys. induction pre as [|[k' v'] pre IH]; simpl; [done|].
  intros H. apply not_elem_of_cons in H as [Hne H].
  rewrite decide_False by done. by apply IH.
Qed.

(** ** Variant A: what [update] does, case by case *)

Lemma A_update_cases (self : loc) (conf : pyval) (st : process) :
  NeuroTutorials.update self conf st =
    match conf with
    | VDict d =>
        match dict_get d (KStr "data_path") with
        | Some v =>
            match os_path_exists (fs st) v with
            | Ok true =>
                (Ok tt, set_dict self (dict_update (get_dict self st) d) st)
            | Ok false => (Raise ValueError, st)
            | Raise e => (Raise e, st)
            end
        | None => (Raise KeyError, st)
        end
    | _ => (Raise ValueError, st)
    end.
Proof.
  unfold NeuroTutorials.update, NeuroTutorials._validate_conf, bind, raise.
  destruct conf; try done.
  destruct (dict_get d _); [|done].
  by destruct (os_path_exists _ _) as [[|]|].
Qed.

Lemma A_update_raise (self : loc) (conf : pyval) (st st' : process) (e : exn) :
  NeuroTutorials.update self conf st = (Raise e, st') -> st' = st.
Proof.
  rewrite A_update_cases. destruct conf; try congruence.
  destruct (dict_get d _); [|congruence].
  destruct (os_path_exists _ _) as [[|]|]; congruence.
Qed.

Lemma A_update_keeps_instance (self : loc) (conf : pyval) :
  keeps_instance (NeuroTutorials.update self conf).
Proof.
  intros st. rewrite A_update_cases. destruct conf; try done.
  destruct (dict_get d _); [|done].
  by destruct (os_path_exists _ _) as [[|]|].
Qed.

(** ** Variant B: item assignment and [update] *)

Section registry_facts.

Variable DATA_SETS : list pykey.

Lemma B_setitem_cases (self : loc) (key value : pyval) (st : process) :
  Pynacollada.__setitem__ DATA_SETS self key value st =
    match key with
    | VStr k =>
        match checked_value DATA_SETS k value with
        | Ok v =>
            (Ok tt, set_dict self (dict_set (get_dict self st) (KStr k) v) st)
        | Raise e => (Raise e, st)
        end
    | _ => (Raise TypeError, st)
    end.
Proof.
  unfold Pynacollada.__setitem__, Pynacollada._validate_conf, checked_value.
  destruct key; try done.
  destruct (decide (s = "data_dir")); [by destruct value|].
  destruct (decide (s = "unique_data_dir")); [|done].
  destruct value; try done. by destruct (Pynacollada.validate_items _ _ _).
Qed.


Lemma B_setitem_keeps_instance (self : loc) (key value : pyval) :
  keeps_instance (Pynacollada.__setitem__ DATA_SETS self key value).
Proof.
  intros st. rewrite B_setitem_cases. destruct key; try done.
  by destruct (checked_value _ _ _).
Qed.

Lemma B_set_items_keeps_instance (self : loc) (items : list (pyval * pyval)) :
  keeps_instance (Pynacollada.set_items DATA_SETS self items).
Proof.
  induction items as [|[k v] items IH]; simpl; [done|].
  apply keeps_instance_bind; [apply B_setitem_keeps_instance|done].
Qed.

Lemma B_set_pairs_keeps_instance (self : loc) (other : list pyval) :
  keeps_instance (Pynacollada.set_pairs DATA_SETS self other).
Proof.
  induction other as [|x other IH]; simpl; [done|].
  apply keeps_instance_bind; [done|]. intros kv.
  apply keeps_instance_bind; [apply B_setitem_keeps_instance|done].
Qed.

Lemma B_update_keeps_instance (self : loc) (other : pyval)
    (kwds : list (string * pyval)) :
  keeps_instance (Pynacollada.update DATA_SETS self other kwds).
Proof.
  apply keeps_instance_bind.
  - destruct other as [| | |s| | |]; try done.
    + by destruct s.
    + apply B_set_pairs_keeps_instance.
    + apply B_set_items_keeps_instance.
  - intros _. apply B_set_items_keeps_instance.
Qed.


Lemma B_update_dict (self : loc) (d : dict) (st : process) :
  Pynacollada.update DATA_SETS self (VDict d) [] st
  = Pynacollada.set_items DATA_SETS self (Pynacollada.dict_items d) st.
Proof.
  change (Pynacollada.update DATA_SETS self (VDict d) [] st) with
    (bind (Pynacollada.set_items DATA_SETS self (Pynacollada.dict_items d))
       (fun _ => ret tt) st).
  apply bind_ret_tt.
Qed.

Lemma B_update_single (self : loc) (k : pykey) (v : pyval) (st : process) :
  Pynacollada.update DATA_SETS self (VDict [(k, v)]) [] st
  = Pynacollada.__setitem__ DATA_SETS self (key_val k) v st.
Proof.
  rewrite B_update_dict.
  change (Pynacollada.set_items DATA_SETS self
            (Pynacollada.dict_items [(k, v)]) st) with
    (bind (Pynacollada.__setitem__ DATA_SETS self (key_val k) v)
       (fun _ => ret tt) st).
  apply bind_ret_tt.
Qed.

(** The loop of the [unique_data_dir] case, started on a dictionary whose
    first entries [pre] it has already been through. *)
Lemma validate_items_app (pre items : dict) :
  dict_wf (pre ++ items) ->
  match Pynacollada.validate_items DATA_SETS items (pre ++ items) with
  | Ok d' =>
      forallb (entry_ok DATA_SETS) items = true
      /\ d' = pre ++ normalize_dict items
  | Raise e =>
      forallb (entry_ok DATA_SETS) items = false /\ InvalidConfig e = true
  end.
Proof.
  revert pre. induction items as [|[k v] rest IH]; intros pre Hwf; simpl.
  - done.
  - assert (k ∉ keys pre) as Hk.
    { unfold dict_wf, keys in Hwf. rewrite fmap_app in Hwf.
      apply NoDup_app in Hwf as (_ & Hdis & _). intros Hin.
      apply (Hdis k Hin). apply list_elem_of_here. }
    change (entry_ok DATA_SETS (k, v)) with
      (bool_decide (k ∈ DATA_SETS)
       && (isinstance_str v || isinstance_PathLike v)).
    destruct (bool_decide (k ∈ DATA_SETS)); simpl; [|done].
    assert (forall x, dict_wf ((pre ++ [(k, x)]) ++ rest)) as Hwf'.
    { intros x. unfold dict_wf, keys in *.
      by rewrite <- app_assoc, fmap_app in *. }
    destruct (isinstance_PathLike v) eqn:Hp.
    + rewrite dict_set_app_r, dict_get_app_r by done. simpl.
      repeat (case_decide; [|done]; simpl). rewrite orb_true_r. simpl.
      specialize (IH (pre ++ [(k, VStr (py_str v))]) (Hwf' _)).
      rewrite <- app_assoc in IH. simpl in IH.
      destruct (Pynacollada.validate_items _ _ _); [|done].
      destruct IH as [? ->]. split; [done|].
      rewrite <- app_assoc. simpl. unfold normalize at 1. by rewrite Hp.
    + rewrite dict_get_app_r by done. simpl.
      repeat (case_decide; [|done]; simpl).
      rewrite orb_false_r. destruct (isinstance_str v); simpl; [|done].
      specialize (IH (pre ++ [(k, v)]) (Hwf' _)).
      rewrite <- app_assoc in IH. simpl in IH.
      destruct (Pynacollada.validate_items _ _ _); [|done].
      destruct IH as [? ->]. split; [done|].
      rewrite <- app_assoc. simpl. unfold normalize at 1. by rewrite Hp.
Qed.

Lemma validate_items_spec (d : dict) :
  dict_wf d ->
  match Pynacollada.validate_items DATA_SETS d d with
  | Ok d' => forallb (entry_ok DATA_SETS) d = true /\ d' = normalize_dict d
  | Raise e => forallb (entry_ok DATA_SETS) d = false /\ InvalidConfig e = true
  end.
Proof. intros Hwf. by apply (validate_items_app []). Qed.


End registry_facts.

(** * The claims *)

(** ** Variant A: the submitted mapping must carry [data_path] *)

(** C9. In Variant A, [update] with a dictionary that has no ["data_path"]
    key raises [KeyError], whatever the store holds and whatever else is
    submitted, and leaves the process as it was. *)
Theorem C9_update_without_data_path (self : loc) (d : dict) (st : process) :
  dict_get d (KStr "data_path") = None ->
  NeuroTutorials.update self (VDict d) st = (Raise KeyError, st).
Proof. intros H. rewrite A_update_cases. by rewrite H. Qed.

(** [update({})] on a store whose [data_path] is valid. *)
Lemma C9_update_without_data_path_witness :
  dict_get (get_dict 1%positive demo_A) (KStr "data_path")
    = Some (VStr "/home/user")
  /\ NeuroTutorials.update 1%positive (VDict []) demo_A
     = (Raise KeyError, demo_A).
Proof.
  split; [reflexivity|].
  apply (C9_update_without_data_path 1%positive [] demo_A). reflexivity.
Defined.

(** ** Variant B: keys that are not recognized *)

(** C10. In Variant B, item assignment raises [TypeError] for every key that
    is not a string and changes nothing; a string key other than ["data_dir"]
    and ["unique_data_dir"] is accepted with any value, which is stored as it
    was given. The same holds for an [update] that submits the entry. *)
Theorem C10_item_assignment_keys (DATA_SETS : list pykey) (self : loc)
    (st : process) :
  (forall key value,
     isinstance_str key = false ->
     Pynacollada.__setitem__ DATA_SETS self key value st
       = (Raise TypeError, st))
  /\ (forall n value,
        Pynacollada.update DATA_SETS self (VDict [(KInt n, value)]) [] st
          = (Raise TypeError, st))
  /\ (forall k value,
        k <> "data_dir" -> k <> "unique_data_dir" ->
        let st' :=
          set_dict self (dict_set (get_dict self st) (KStr k) value) st in
        Pynacollada.__setitem__ DATA_SETS self (VStr k) value st = (Ok tt, st')
        /\ Pynacollada.update DATA_SETS self (VDict [(KStr k, value)]) [] st
           = (Ok tt, st')
        /\ Pynacollada.__getitem__ self (KStr k) st' = (Ok value, st')).
Proof.
  split; [|split].
  - intros key value Hkey. rewrite B_setitem_cases. by destruct key.
  - intros n value. by rewrite B_update_single, B_setitem_cases.
  - intros k value Hk1 Hk2 st'.
    assert (Pynacollada.__setitem__ DATA_SETS self (VStr k) value st
            = (Ok tt, st')) as Hset.
    { rewrite B_setitem_cases. unfold checked_value.
      by rewrite !decide_False by done. }
    split; [done|]. split.
    + by rewrite B_update_single.
    + unfold Pynacollada.__getitem__, st'.
      by rewrite get_set_dict, dict_get_set_eq.
Qed.

Lemma C10_item_assignment_keys_witness :
  Pynacollada.__setitem__ [KStr "A"; KStr "B"] 1%positive (VInt 7)
    (VStr "/x") demo_B = (Raise TypeError, demo_B)
  /\ get_dict 1%positive
       (Pynacollada.__setitem__ [KStr "A"; KStr "B"] 1%positive (VStr "note")
          (VList [VNone; VPath "/p"]) demo_B).2
     = [(KStr "data_dir", VStr "/cache"); (KStr "unique_data_dir", VDict []);
        (KStr "note", VList [VNone; VPath "/p"])].
Proof.
  destruct (C10_item_assignment_keys [KStr "A"; KStr "B"] 1%positive demo_B)
    as (Hbad & _ & Hgood).
  split.
  - apply Hbad. reflexivity.
  - destruct (Hgood "note" (VList [VNone; VPath "/p"])) as (-> & _ & _);
      [discriminate|discriminate|reflexivity].
Defined.

(** ** Variant B: path-like values are stored in their string form *)

(** C7. In Variant B, assigning a path-like value [v] to ["data_dir"]
    succeeds and stores [str(v)], which is what a later lookup returns; and
    an accepted ["unique_data_dir"] mapping is stored with every path-like
    value in it replaced by its string form, all its values being strings. *)
Theorem C7_path_normalization (DATA_SETS : list pykey) (self : loc)
    (st : process) :
  (forall s,
     let st' :=
       set_dict self (dict_set (get_dict self st) (KStr "data_dir") (VStr s))
         st in
     Pynacollada.__setitem__ DATA_SETS self (VStr "data_dir") (VPath s) st
       = (Ok tt, st')
     /\ Pynacollada.__getitem__ self (KStr "data_dir") st' = (Ok (VStr s), st'))
  /\ (forall d,
        dict_wf d -> forallb (entry_ok DATA_SETS) d = true ->
        let st' :=
          set_dict self
            (dict_set (get_dict self st) (KStr "unique_data_dir")
               (VDict (normalize_dict d))) st in
        Pynacollada.__setitem__ DATA_SETS self (VStr "unique_data_dir")
          (VDict d) st = (Ok tt, st')
        /\ Pynacollada.__getitem__ self (KStr "unique_data_dir") st'
           = (Ok (VDict (normalize_dict d)), st')
        /\ (forall k s, (k, VPath s) ∈ d -> (k, VStr s) ∈ normalize_dict d)
        /\ Forall (fun kv => isinstance_str kv.2 = true) (normalize_dict d)).
Proof.
  split.
  - intros s st'. split.
    + by rewrite B_setitem_cases.
    + unfold Pynacollada.__getitem__, st'.
      by rewrite get_set_dict, dict_get_set_eq.
  - intros d Hwf Hok st'. split; [|split; [|split]].
    + rewrite B_setitem_cases. unfold checked_value. simpl.
      pose proof (validate_items_spec DATA_SETS d Hwf) as Hspec.
      destruct (Pynacollada.validate_items _ _ _) as [d'|e].
      * by destruct Hspec as [_ ->].
      * destruct Hspec as [Hno _]. congruence.
    + unfold Pynacollada.__getitem__, st'.
      by rewrite get_set_dict, dict_get_set_eq.
    + intros k s Hin. unfold normalize_dict.
      apply list_elem_of_fmap. by exists (k, VPath s).
    + unfold normalize_dict. apply Forall_fmap, Forall_forall.
      intros [k v] Hin. simpl.
      pose proof (forallb_elem _ _ _ Hok Hin) as Hkv.
      unfold entry_ok in Hkv. simpl in Hkv.
      apply andb_prop in Hkv as [_ Hv].
      unfold normalize. by destruct v.
Qed.

Lemma C7_path_normalization_witness :
  get_dict 1%positive
    (Pynacollada.__setitem__ [KStr "A"; KStr "B"] 1%positive
       (VStr "unique_data_dir")
       (VDict [(KStr "B", VPath "/b"); (KStr "A", VStr "/a")]) demo_B).2
  = [(KStr "data_dir", VStr "/cache");
     (KStr "unique_data_dir",
      VDict [(KStr "B", VStr "/b"); (KStr "A", VStr "/a")])].
Proof.
  destruct (C7_path_normalization [KStr "A"; KStr "B"] 1%positive demo_B)
    as [_ H].
  destruct (H [(KStr "B", VPath "/b"); (KStr "A", VStr "/a")])
    as (-> & _).
  - unfold dict_wf. apply (bool_decide_unpack _). reflexivity.
  - reflexivity.
  - reflexivity.
Defined.

(** ** Variant B: what makes a submitted [unique_data_dir] fail *)

(** C5. In Variant B, an update that submits [unique_data_dir] fails with
    [InvalidConfig] exactly when the submitted value is not a dictionary, or
    one of its keys is not a recognized dataset name, or one of its values
    is neither a string nor path-like. With the names [A] and [B]
    recognized, [update({"unique_data_dir": {"C": "/tmp"}})] fails. *)
Theorem C5_unique_data_dir_validation (DATA_SETS : list pykey) (self : loc)
    (value : pyval) (st : process) :
  value_wf value ->
  ((exists e st',
      Pynacollada.update DATA_SETS self
        (VDict [(KStr "unique_data_dir", value)]) [] st = (Raise e, st')
      /\ InvalidConfig e = true)
   <-> (isinstance_dict value = false
        \/ (exists d k, value = VDict d /\ k ∈ keys d /\ k ∉ DATA_SETS)
        \/ (exists d v, value = VDict d /\ v ∈ d.*2
                        /\ isinstance_str v = false
                        /\ isinstance_PathLike v = false)))
  /\ Pynacollada.update [KStr "A"; KStr "B"] self
       (VDict [(KStr "unique_data_dir", VDict [(KStr "C", VStr "/tmp")])]) []
       st = (Raise ValueError, st).
Proof.
  intros Hwf. split; [|by rewrite B_update_single, B_setitem_cases].
  rewrite B_update_single, B_setitem_cases. simpl. unfold checked_value. simpl.
  destruct value as [| | | | | |d];
    try (split; [intros _; by left|intros _; by exists TypeError, st]).
  pose proof (validate_items_spec DATA_SETS d Hwf) as Hspec.
  destruct (Pynacollada.validate_items _ _ _) as [d'|e].
  - destruct Hspec as [Hall _]. split.
    + intros (e & st' & [=] & _).
    + intros [[=]|[(d0 & k & [= <-] & Hk & Hno)|(d0 & v & [= <-] & Hv & Hs & Hp)]].
      * apply list_elem_of_fmap in Hk as ([k' v'] & -> & Hin).
        pose proof (forallb_elem _ _ _ Hall Hin) as Hkv.
        apply andb_prop in Hkv as [Hin' _]. simpl in Hin'.
        by apply bool_decide_eq_true in Hin'.
      * apply list_elem_of_fmap in Hv as ([k' v'] & -> & Hin).
        pose proof (forallb_elem _ _ _ Hall Hin) as Hkv.
        apply andb_prop in Hkv as [_ Hv]. simpl in *.
        rewrite Hs, Hp in Hv. done.
  - destruct Hspec as [Hno He]. split.
    + intros _. right.
      apply forallb_false_elem in Hno as ([k v] & Hin & Hkv).
      unfold entry_ok in Hkv. simpl in Hkv.
      apply andb_false_iff in Hkv as [Hk|Hv].
      * left. exists d, k. split; [done|]. split.
        -- apply list_elem_of_fmap. by exists (k, v).
        -- by apply bool_decide_eq_false in Hk.
      * right. exists d, v. split; [done|].
        apply orb_false_iff in Hv as [? ?]. split; [|done].
        apply list_elem_of_fmap. by exists (k, v).
    + intros _. by exists e, st.
Qed.

Lemma C5_unique_data_dir_validation_witness :
  (exists e st',
     Pynacollada.update [KStr "A"; KStr "B"] 1%positive
       (VDict [(KStr "unique_data_dir", VDict [(KStr "A", VInt 3)])]) []
       demo_B = (Raise e, st')
     /\ InvalidConfig e = true).
Proof.
  apply (C5_unique_data_dir_validation [KStr "A"; KStr "B"] 1%positive
           (VDict [(KStr "A", VInt 3)]) demo_B).
  - simpl. unfold dict_wf. apply (bool_decide_unpack _). reflexivity.
  - right. right. exists [(KStr "A", VInt 3)], (VInt 3).
    split; [reflexivity|]. split; [apply list_elem_of_here|].
    split; reflexivity.
Defined.

(** ** What a rejected update leaves behind *)




(** ** Variant A: what [update] checks *)

(** C4, as stated: the store holds a [data_path] that names a directory, so
    the merged state of [update({"note": "x"})] has a valid [data_path], yet
    the call raises [KeyError] and merges nothing; and a [data_path] that
    names a regular file is accepted. *)
Lemma C4_merged_state_counterexample :
  dict_get (dict_update (get_dict 1%positive demo_A) [(KStr "note", VStr "x")])
    (KStr "data_path") = Some (VStr "/home/user")
  /\ fs_isdir (fs demo_A) "/home/user" = true
  /\ NeuroTutorials.update 1%positive (VDict [(KStr "note", VStr "x")]) demo_A
     = (Raise KeyError, demo_A)
  /\ fs_isdir (fs demo_A) "/data/notes.txt" = false
  /\ (NeuroTutorials.update 1%positive
        (VDict [(KStr "data_path", VStr "/data/notes.txt")]) demo_A).1
     = Ok tt.
Proof. repeat split; reflexivity. Qed.

(** C4, amended. In Variant A, [update] raises [ValueError] when the input
    is not a dictionary, and when the [data_path] entry of the submitted
    dictionary itself names nothing that exists on the file system (a
    directory or a file); in both cases nothing has been changed. When that
    entry names something that exists, all submitted entries are merged into
    the store. *)
Theorem C4_update_validation (self : loc) (conf : pyval) (st : process) :
  (isinstance_dict conf = false ->
   NeuroTutorials.update self conf st = (Raise ValueError, st))
  /\ (forall d v,
        conf = VDict d -> dict_get d (KStr "data_path") = Some v ->
        os_path_exists (fs st) v = Ok false ->
        NeuroTutorials.update self conf st = (Raise ValueError, st))
  /\ (forall d v,
        conf = VDict d -> dict_get d (KStr "data_path") = Some v ->
        os_path_exists (fs st) v = Ok true ->
        NeuroTutorials.update self conf st
        = (Ok tt, set_dict self (dict_update (get_dict self st) d) st)).
Proof.
  rewrite A_update_cases. split; [|split].
  - by destruct conf.
  - intros d v -> Hv Hex. by rewrite Hv, Hex.
  - intros d v -> Hv Hex. by rewrite Hv, Hex.
Qed.

Lemma C4_update_validation_witness :
  NeuroTutorials.update 1%positive (VInt 3) demo_A = (Raise ValueError, demo_A)
  /\ NeuroTutorials.update 1%positive
       (VDict [(KStr "data_path", VStr "/nowhere")]) demo_A
     = (Raise ValueError, demo_A)
  /\ get_dict 1%positive
       (NeuroTutorials.update 1%positive
          (VDict [(KStr "data_path", VStr "/data"); (KStr "note", VInt 1)])
          demo_A).2
     = [(KStr "data_path", VStr "/data"); (KStr "note", VInt 1)].
Proof.
  split; [|split].
  - apply (C4_update_validation 1%positive (VInt 3) demo_A). reflexivity.
  - destruct (C4_update_validation 1%positive
                (VDict [(KStr "data_path", VStr "/nowhere")]) demo_A)
      as (_ & H & _).
    eapply H; reflexivity.
  - destruct (C4_update_validation 1%positive
                (VDict [(KStr "data_path", VStr "/data"); (KStr "note", VInt 1)])
                demo_A) as (_ & _ & H).
    rewrite (H [(KStr "data_path", VStr "/data"); (KStr "note", VInt 1)]
               (VStr "/data")); reflexivity.
Defined.

(** ** The singleton *)

Lemma bind_returns {A : Type} (c : M A) (k : A -> M loc) (l : loc)
    (st : process) :
  (forall a st', (k a st').1 = Ok l \/ exists e, (k a st').1 = Raise e) ->
  (bind c k st).1 = Ok l \/ exists e, (bind c k st).1 = Raise e.
Proof.
  intros Hk. unfold bind. destruct (c st) as [[a|e] st']; [apply Hk|].
  right. by exists e.
Qed.

Lemma A_new_again (st : process) (l : loc) (conf_file : string)
    (dflt : pyval) :
  cls_instance st = Some l ->
  NeuroTutorials.__new__ conf_file dflt st = (Ok l, st).
Proof. intros H. unfold NeuroTutorials.__new__. by rewrite H. Qed.

Lemma B_new_again (DATA_SETS : list pykey) (st : process) (l : loc)
    (conf_file : string) (dflt : pyval) :
  cls_instance st = Some l ->
  Pynacollada.__new__ DATA_SETS conf_file dflt st = (Ok l, st).
Proof. intros H. unfold Pynacollada.__new__. by rewrite H. Qed.

(** The process once [__new__] has made the object and put it in
    [Config._instance]. *)
Lemma A_new_first_steps (st : process) (conf_file : string) (dflt : pyval) :
  cls_instance st = None ->
  let l := fresh (dom (heap st)) in
  NeuroTutorials.__new__ conf_file dflt st
  = (conf <- (fun st' =>
                if path_exists (fs st') conf_file
                then (c <- open_read conf_file ;; json_load c) st'
                else (Ok dflt, st')) ;;
     NeuroTutorials.update l conf ;;;
     ret l)
      {| cls_instance := Some l; heap := <[l := []]> (heap st); fs := fs st |}.
Proof. intros H l. unfold NeuroTutorials.__new__. by rewrite H. Qed.

Lemma B_new_first_steps (DATA_SETS : list pykey) (st : process)
    (conf_file : string) (dflt : pyval) :
  cls_instance st = None ->
  let l := fresh (dom (heap st)) in
  Pynacollada.__new__ DATA_SETS conf_file dflt st
  = (Pynacollada.update DATA_SETS l dflt [] ;;;
     (fun st' =>
        if path_exists (fs st') conf_file
        then (c <- open_read conf_file ;;
              conf <- json_load c ;;
              Pynacollada.update DATA_SETS l conf []) st'
        else (Ok tt, st')) ;;;
     ret l)
      {| cls_instance := Some l; heap := <[l := []]> (heap st); fs := fs st |}.
Proof. intros H l. unfold Pynacollada.__new__. by rewrite H. Qed.

Lemma A_new_first (st : process) (conf_file : string) (dflt : pyval) :
  cls_instance st = None ->
  let r := NeuroTutorials.__new__ conf_file dflt st in
  let l := fresh (dom (heap st)) in
  cls_instance r.2 = Some l /\ (r.1 = Ok l \/ exists e, r.1 = Raise e).
Proof.
  intros Hnone r l. unfold r. rewrite A_new_first_steps by done. fold l.
  split.
  - match goal with
    | |- cls_instance (bind ?c ?k ?s).2 = _ =>
        assert (keeps_instance (bind c k)) as Hkeep
    end.
    { apply keeps_instance_bind.
      - intros s. destruct (path_exists _ _); [|done].
        apply keeps_instance_bind; auto with instance.
      - intros conf. apply keeps_instance_bind; [|auto with instance].
        apply A_update_keeps_instance. }
    by rewrite Hkeep.
  - apply bind_returns. intros conf s. apply bind_returns. intros _ s'.
    by left.
Qed.

Lemma B_new_first (DATA_SETS : list pykey) (st : process)
    (conf_file : string) (dflt : pyval) :
  cls_instance st = None ->
  let r := Pynacollada.__new__ DATA_SETS conf_file dflt st in
  let l := fresh (dom (heap st)) in
  cls_instance r.2 = Some l /\ (r.1 = Ok l \/ exists e, r.1 = Raise e).
Proof.
  intros Hnone r l. unfold r. rewrite B_new_first_steps by done. fold l.
  split.
  - match goal with
    | |- cls_instance (bind ?c ?k ?s).2 = _ =>
        assert (keeps_instance (bind c k)) as Hkeep
    end.
    { apply keeps_instance_bind; [apply B_update_keeps_instance|].
      intros _. apply keeps_instance_bind; [|auto with instance].
      intros s. destruct (path_exists _ _); [|done].
      apply keeps_instance_bind; [auto with instance|]. intros c.
      apply keeps_instance_bind; [auto with instance|]. intros conf.
      apply B_update_keeps_instance. }
    by rewrite Hkeep.
  - apply bind_returns. intros _ s. apply bind_returns. intros _ s'.
    by left.
Qed.

Lemma construct_all_again (new : string -> pyval -> M loc) :
  (forall st l conf_file dflt,
     cls_instance st = Some l -> new conf_file dflt st = (Ok l, st)) ->
  forall calls st l,
    cls_instance st = Some l ->
    construct_all new calls st = ((fun _ => Ok l) <$> calls, st).
Proof.
  intros Hagain calls st l Hl.
  induction calls as [|[conf_file dflt] calls IH]; [done|].
  simpl. rewrite (Hagain _ _ _ _ Hl). simpl. by rewrite IH.
Qed.

Lemma singleton_intro {K : Type} (new : string -> pyval -> M loc)
    (setitem : loc -> K -> pyval -> M unit)
    (getitem : loc -> pykey -> M pyval) :
  (forall st l conf_file dflt,
     cls_instance st = Some l -> new conf_file dflt st = (Ok l, st)) ->
  (forall st conf_file dflt,
     cls_instance st = None ->
     let r := new conf_file dflt st in
     let l := fresh (dom (heap st)) in
     cls_instance r.2 = Some l /\ (r.1 = Ok l \/ exists e, r.1 = Raise e)) ->
  (forall l key value, keeps_instance (setitem l key value)) ->
  forall st first calls, singleton new setitem getitem st first calls.
Proof.
  intros Hagain Hfirst Hkeep st first calls. unfold singleton.
  assert (exists l,
            cls_instance (new first.1 first.2 st).2 = Some l
            /\ ((new first.1 first.2 st).1 = Ok l
                \/ exists e, (new first.1 first.2 st).1 = Raise e))
    as (l & Hl & Hr).
  { destruct (cls_instance st) as [l|] eqn:Hst.
    - exists l. rewrite (Hagain _ _ _ _ Hst). split; [done|by left].
    - eexists. apply (Hfirst _ _ _ Hst). }
  exists l. split; [done|]. split; [done|]. split.
  - by apply construct_all_again.
  - intros st1 key value conf_file dflt k Hst1. cbv zeta.
    assert (cls_instance (setitem l key value st1).2 = Some l) as Hst2.
    { by rewrite Hkeep. }
    unfold bind. by rewrite (Hagain _ _ _ _ Hst2).
Qed.

(** C1. In both variants: whatever the parameters, a construction leaves an
    instance in [Config._instance] (and returns it, unless its
    initialization raised); every construction after it returns that same
    instance and leaves the whole process, the store included, as it is; and
    what an item assignment through the instance has stored is what a
    reference obtained by a further construction reads. *)
Theorem C1_singleton (DATA_SETS : list pykey) (st : process)
    (first : string * pyval) (calls : list (string * pyval)) :
  singleton NeuroTutorials.__new__ NeuroTutorials.__setitem__
    NeuroTutorials.__getitem__ st first calls
  /\ singleton (Pynacollada.__new__ DATA_SETS)
       (Pynacollada.__setitem__ DATA_SETS) Pynacollada.__getitem__
       st first calls.
Proof.
  split.
  - apply singleton_intro.
    + intros. by apply A_new_again.
    + intros. by apply A_new_first.
    + intros l key value. apply A_update_keeps_instance.
  - apply singleton_intro.
    + intros. by apply B_new_again.
    + intros. by apply B_new_first.
    + intros l key value. apply B_setitem_keeps_instance.
Qed.

Lemma C1_singleton_witness :
  singleton NeuroTutorials.__new__ NeuroTutorials.__setitem__
    NeuroTutorials.__getitem__ (fresh_process fs_demo)
    (NeuroTutorials.LOCALCONFIG, VDict [(KStr "data_path", VStr "/data")])
    [("elsewhere.json", VNone); (NeuroTutorials.LOCALCONFIG, VInt 0)]
  /\ singleton (Pynacollada.__new__ [KStr "A"; KStr "B"])
       (Pynacollada.__setitem__ [KStr "A"; KStr "B"]) Pynacollada.__getitem__
       (fresh_process fs_demo)
       (NeuroTutorials.LOCALCONFIG, VDict [(KStr "data_path", VStr "/data")])
       [("elsewhere.json", VNone); (NeuroTutorials.LOCALCONFIG, VInt 0)].
Proof.
  exact (C1_singleton [KStr "A"; KStr "B"] (fresh_process fs_demo)
           (NeuroTutorials.LOCALCONFIG,
            VDict [(KStr "data_path", VStr "/data")])
           [("elsewhere.json", VNone); (NeuroTutorials.LOCALCONFIG, VInt 0)]).
Defined.

(** ** Construction *)

Lemma set_dict_id (self : loc) (st : process) :
  is_Some (heap st !! self) -> set_dict self (get_dict self st) st = st.
Proof.
  intros [d Hd]. destruct st as [i h f]. unfold set_dict, get_dict in *.
  simpl in *. rewrite Hd. simpl. f_equal. by apply insert_id.
Qed.

Lemma set_dict_allocated (self : loc) (d : dict) (st : process) :
  is_Some (heap (set_dict self d st) !! self).
Proof. unfold set_dict. simpl. rewrite lookup_insert_eq. by eexists. Qed.

(** An [update] with a dictionary all of whose entries pass the checks
    stores the checked entries, in their order. *)
Lemma B_set_items_checked (DATA_SETS : list pykey) (self : loc) (d : dict) :
  forall (d' : dict) (st : process),
    is_Some (heap st !! self) ->
    checked_dict DATA_SETS d = Ok d' ->
    Pynacollada.set_items DATA_SETS self (Pynacollada.dict_items d) st
    = (Ok tt, set_dict self (dict_update (get_dict self st) d') st).
Proof.
  induction d as [|[k v] d IH]; intros d' st Hself Hchk.
  - injection Hchk as <-. simpl. unfold ret. by rewrite set_dict_id.
  - unfold checked_dict in Hchk. simpl in Hchk.
    unfold checked_entry in Hchk at 1. simpl in Hchk.
    destruct k as [s|n]; [|done].
    destruct (checked_value DATA_SETS s v) as [v'|e] eqn:Hv; [|done].
    destruct (mapM (checked_entry DATA_SETS) d) as [rest|e] eqn:Hrest; [|done].
    injection Hchk as <-.
    change (Pynacollada.set_items DATA_SETS self
              (Pynacollada.dict_items ((KStr s, v) :: d)) st)
      with (bind (Pynacollada.__setitem__ DATA_SETS self (VStr s) v)
              (fun _ => Pynacollada.set_items DATA_SETS self
                          (Pynacollada.dict_items d)) st).
    unfold bind. rewrite B_setitem_cases, Hv.
    rewrite (IH rest) by (done || apply set_dict_allocated).
    by rewrite get_set_dict, set_set_dict.
Qed.

Lemma B_update_checked (DATA_SETS : list pykey) (self : loc) (d d' : dict)
    (st : process) :
  is_Some (heap st !! self) ->
  checked_dict DATA_SETS d = Ok d' ->
  Pynacollada.update DATA_SETS self (VDict d) [] st
  = (Ok tt, set_dict self (dict_update (get_dict self st) d') st).
Proof. intros. rewrite B_update_dict. by apply B_set_items_checked. Qed.


Lemma path_exists_file (f : filesystem) (p : string) (c : file) :
  fs_file f p = Some c -> path_exists f p = true.
Proof.
  intros H. unfold path_exists. rewrite H.
  rewrite bool_decide_eq_true_2 by by eexists. apply orb_true_r.
Qed.




(** ** JSON documents *)

(** Induction on values, with the hypothesis available for the members of
    lists and dictionaries. *)
Lemma pyval_nested_ind (P : pyval -> Prop) :
  P VNone ->
  (forall b, P (VBool b)) ->
  (forall n, P (VInt n)) ->
  (forall s, P (VStr s)) ->
  (forall s, P (VPath s)) ->
  (forall l, Forall P l -> P (VList l)) ->
  (forall d, Forall (fun kv => P kv.2) d -> P (VDict d)) ->
  forall v, P v.
Proof.
  intros Hnone Hbool Hint Hstr Hpath Hlist Hdict.
  fix IH 1. intros [| b | n | s | s | l | d].
  - apply Hnone.
  - apply Hbool.
  - apply Hint.
  - apply Hstr.
  - apply Hpath.
  - apply Hlist. induction l as [|x l IHl]; constructor; [apply IH|apply IHl].
  - apply Hdict. induction d as [|[k x] d IHd]; constructor;
      [apply IH|apply IHd].
Qed.







(** ** Saving and loading *)











(** * Further properties of the two modules *)

(** ** What the methods leave alone *)

Lemma touches_only_bind {A B : Type} (self : loc) (c : M A) (k : A -> M B) :
  touches_only self c -> (forall a, touches_only self (k a)) ->
  touches_only self (bind c k).
Proof.
  intros Hc Hk st. unfold bind. destruct (Hc st) as (H1 & H2 & H3).
  destruct (c st) as [[a|e] st']; simpl in *; [|done].
  destruct (Hk a st') as (H1' & H2' & H3').
  split; [congruence|]. split; [congruence|].
  intros l Hl. rewrite H3' by done. by apply H3.
Qed.

Lemma touches_only_ret {A : Type} (self : loc) (a : A) :
  touches_only self (ret a).
Proof. done. Qed.

Lemma touches_only_raise {A : Type} (self : loc) (e : exn) :
  touches_only self (@raise A e).
Proof. done. Qed.

Lemma touches_only_lift {A : Type} (self : loc) (r : result A) :
  touches_only self (lift r).
Proof. done. Qed.

Lemma touches_only_open_read (self : loc) (p : string) :
  touches_only self (open_read p).
Proof. intros st. by rewrite open_read_state. Qed.

Lemma touches_only_json_load (self : loc) (c : file) :
  touches_only self (json_load c).
Proof. intros st. by rewrite json_load_state. Qed.

Lemma touches_only_set_dict {A : Type} (self : loc) (a : A)
    (f : process -> dict) :
  touches_only self (fun st => (Ok a, set_dict self (f st) st)).
Proof.
  intros st. simpl. split; [done|]. split; [done|].
  intros l Hl. by rewrite lookup_insert_ne.
Qed.

Create HintDb frame.

#[global] Hint Resolve touches_only_ret touches_only_raise touches_only_lift
  touches_only_open_read touches_only_json_load : frame.

Lemma A_update_touches_only (self : loc) (conf : pyval) :
  touches_only self (NeuroTutorials.update self conf).
Proof.
  intros st. rewrite A_update_cases. destruct conf; try done.
  destruct (dict_get d _); [|done].
  destruct (os_path_exists _ _) as [[|]|]; try done.
  apply (touches_only_set_dict self tt
           (fun st => dict_update (get_dict self st) d)).
Qed.

Lemma A_load_touches_only (self : loc) (conf_file : string) :
  touches_only self (NeuroTutorials.load self conf_file).
Proof.
  apply touches_only_bind; [auto with frame|]. intros c.
  apply touches_only_bind; [auto with frame|]. intros conf.
  apply A_update_touches_only.
Qed.

Lemma B_setitem_touches_only (DATA_SETS : list pykey) (self : loc)
    (key value : pyval) :
  touches_only self (Pynacollada.__setitem__ DATA_SETS self key value).
Proof.
  intros st. rewrite B_setitem_cases. destruct key; try done.
  destruct (checked_value _ _ _) as [v|e]; [|done].
  apply (touches_only_set_dict self tt
           (fun st => dict_set (get_dict self st) (KStr s) v)).
Qed.

Lemma B_set_items_touches_only (DATA_SETS : list pykey) (self : loc)
    (items : list (pyval * pyval)) :
  touches_only self (Pynacollada.set_items DATA_SETS self items).
Proof.
  induction items as [|[k v] items IH]; simpl; [done|].
  apply touches_only_bind; [apply B_setitem_touches_only|done].
Qed.

Lemma B_set_pairs_touches_only (DATA_SETS : list pykey) (self : loc)
    (other : list pyval) :
  touches_only self (Pynacollada.set_pairs DATA_SETS self other).
Proof.
  induction other as [|x other IH]; simpl; [done|].
  apply touches_only_bind; [done|]. intros kv.
  apply touches_only_bind; [apply B_setitem_touches_only|done].
Qed.

Lemma B_update_touches_only (DATA_SETS : list pykey) (self : loc)
    (other : pyval) (kwds : list (string * pyval)) :
  touches_only self (Pynacollada.update DATA_SETS self other kwds).
Proof.
  apply touches_only_bind.
  - destruct other as [| | |s| | |]; try done.
    + by destruct s.
    + apply B_set_pairs_touches_only.
    + apply B_set_items_touches_only.
  - intros _. apply B_set_items_touches_only.
Qed.

Lemma B_load_touches_only (DATA_SETS : list pykey) (self : loc)
    (conf_file : string) :
  touches_only self (Pynacollada.load DATA_SETS self conf_file).
Proof.
  apply touches_only_bind; [auto with frame|]. intros c.
  apply touches_only_bind; [auto with frame|]. intros conf.
  apply B_update_touches_only.
Qed.

Lemma B_reset_touches_only (DATA_SETS : list pykey) (defaults : pyval)
    (self : loc) :
  touches_only self (Pynacollada.reset DATA_SETS defaults self).
Proof.
  apply touches_only_bind.
  - apply (touches_only_set_dict self tt (fun _ => [])).
  - intros _. apply B_update_touches_only.
Qed.

Lemma B_delitem_touches_only (self : loc) (key : pykey) :
  touches_only self (Pynacollada.__delitem__ self key).
Proof.
  intros st. unfold Pynacollada.__delitem__.
  destruct (dict_get _ _); [|done].
  apply (touches_only_set_dict self tt
           (fun st => dict_del (get_dict self st) key)).
Qed.

(** X1. The methods that change the store of [self] (item assignment,
    deletion, [update], [load], and [reset] in Variant B) never change
    [Config._instance] or the file system, nor the [__dict__] of an
    instance other than [self], whether they return or raise. [save]
    changes neither [Config._instance] nor the [__dict__] of any instance,
    and on the file system at most the content of the file it is given.
    (This is about the class attribute, the instances and the files; what
    a call does to the object submitted as a value is not part of it.) *)
Theorem X1_methods_frame (DATA_SETS : list pykey) (defaults : pyval)
    (self : loc) (key : pykey) (k value other : pyval)
    (kwds : list (string * pyval)) (conf_file : string) :
  touches_only self (NeuroTutorials.update self other)
  /\ touches_only self (NeuroTutorials.__setitem__ self key value)
  /\ touches_only self (NeuroTutorials.load self conf_file)
  /\ touches_only self (Pynacollada.__setitem__ DATA_SETS self k value)
  /\ touches_only self (Pynacollada.__delitem__ self key)
  /\ touches_only self (Pynacollada.update DATA_SETS self other kwds)
  /\ touches_only self (Pynacollada.load DATA_SETS self conf_file)
  /\ touches_only self (Pynacollada.reset DATA_SETS defaults self)
  /\ (forall st,
        let st' := (Pynacollada.save self conf_file st).2 in
        NeuroTutorials.save self conf_file st
          = Pynacollada.save self conf_file st
        /\ cls_instance st' = cls_instance st
        /\ heap st' = heap st
        /\ fs_isdir (fs st') = fs_isdir (fs st)
        /\ fs_readable (fs st') = fs_readable (fs st)
        /\ fs_writable (fs st') = fs_writable (fs st)
        /\ forall q, q <> conf_file -> fs_file (fs st') q = fs_file (fs st) q).
Proof.
  split; [apply A_update_touches_only|].
  split; [apply A_update_touches_only|].
  split; [apply A_load_touches_only|].
  split; [apply B_setitem_touches_only|].
  split; [apply B_delitem_touches_only|].
  split; [apply B_update_touches_only|].
  split; [apply B_load_touches_only|].
  split; [apply B_reset_touches_only|].
  intros st st'. split; [done|]. unfold st', Pynacollada.save, open_write_dump.
  destruct (_ || _); [done|].
  destruct (to_json _); simpl; repeat split; try done;
    intros q Hq; by rewrite decide_False.
Qed.

Lemma X1_methods_frame_witness :
  fs (Pynacollada.update [KStr "A"; KStr "B"] 1%positive
        (VDict [(KStr "data_dir", VStr "/new");
                (KStr "unique_data_dir", VInt 5)]) [] demo_B).2 = fs demo_B
  /\ fs_file (fs (Pynacollada.save 1%positive "/data/conf.json" demo_B).2)
       "/data/notes.txt" = fs_file (fs demo_B) "/data/notes.txt".
Proof.
  destruct (X1_methods_frame [KStr "A"; KStr "B"]
              (Pynacollada.defaults "/cache") 1%positive
              (KStr "k") (VStr "k") VNone
              (VDict [(KStr "data_dir", VStr "/new");
                      (KStr "unique_data_dir", VInt 5)]) []
              "/data/conf.json")
    as (_ & _ & _ & _ & _ & Hupd & _ & _ & Hsave).
  split.
  - apply (Hupd demo_B).
  - apply (Hsave demo_B). discriminate.
Defined.

(** ** Variant B: the keys of the store *)

Lemma preserves_bind {A B : Type} (P : dict -> Prop) (self : loc) (c : M A)
    (k : A -> M B) :
  preserves P self c -> (forall a, preserves P self (k a)) ->
  preserves P self (bind c k).
Proof.
  intros Hc Hk st HP. unfold bind. specialize (Hc st HP).
  destruct (c st) as [[a|e] st']; simpl in *; [|done].
  by apply Hk.
Qed.

Lemma preserves_same {A : Type} (P : dict -> Prop) (self : loc) (c : M A) :
  (forall st, (c st).2 = st) -> preserves P self c.
Proof. intros H st HP. by rewrite H. Qed.

Lemma keys_dict_set (d : dict) (k : pykey) (v : pyval) :
  keys (dict_set d k v) = keys d \/ keys (dict_set d k v) = keys d ++ [k].
Proof.
  destruct (decide (k ∈ keys d)) as [Hin|Hnotin].
  - left. by apply keys_dict_set_in.
  - right. rewrite dict_set_notin by done. unfold keys.
    by rewrite fmap_app.
Qed.

Lemma str_keys_set (d : dict) (s : string) (v : pyval) :
  str_keys d -> str_keys (dict_set d (KStr s) v).
Proof.
  intros [Hwf Hstr]. split; [by apply dict_set_wf|].
  destruct (keys_dict_set d (KStr s) v) as [->| ->]; [done|].
  apply Forall_app. split; [done|]. apply Forall_singleton. by exists s.
Qed.

Lemma dict_del_sublist (d : dict) (k : pykey) : sublist (dict_del d k) d.
Proof.
  induction d as [|[k' v'] d IH]; simpl; [done|].
  destruct (decide (k = k')); [by apply sublist_cons|by apply sublist_skip].
Qed.

Lemma str_keys_del (d : dict) (k : pykey) :
  str_keys d -> str_keys (dict_del d k).
Proof.
  intros [Hwf Hstr].
  assert (sublist (keys (dict_del d k)) (keys d)) as Hsub.
  { unfold keys. apply fmap_sublist, dict_del_sublist. }
  split.
  - unfold dict_wf. by eapply sublist_NoDup.
  - apply Forall_forall. intros x Hx.
    apply (proj1 (Forall_forall _ _) Hstr). by eapply elem_of_sublist.
Qed.

Lemma B_setitem_str_keys (DATA_SETS : list pykey) (self : loc)
    (key value : pyval) :
  preserves str_keys self (Pynacollada.__setitem__ DATA_SETS self key value).
Proof.
  intros st H. rewrite B_setitem_cases. destruct key; try done.
  destruct (checked_value _ _ _); [|done].
  simpl. rewrite get_set_dict. by apply str_keys_set.
Qed.

Lemma B_set_items_preserves (DATA_SETS : list pykey) (P : dict -> Prop)
    (self : loc) (items : list (pyval * pyval)) :
  Forall (fun kv => preserves P self
                      (Pynacollada.__setitem__ DATA_SETS self kv.1 kv.2))
    items ->
  preserves P self (Pynacollada.set_items DATA_SETS self items).
Proof.
  induction 1 as [|[k v] items Hkv _ IH]; simpl; [by intros st H|].
  by apply preserves_bind.
Qed.

Lemma B_update_str_keys (DATA_SETS : list pykey) (self : loc) (other : pyval)
    (kwds : list (string * pyval)) :
  preserves str_keys self (Pynacollada.update DATA_SETS self other kwds).
Proof.
  assert (forall items,
            preserves str_keys self
              (Pynacollada.set_items DATA_SETS self items)) as Hitems.
  { intros items. apply B_set_items_preserves, Forall_forall.
    intros kv _. apply B_setitem_str_keys. }
  apply preserves_bind; [|done].
  destruct other as [| | |s| | l |d]; try (by intros st H).
  - by destruct s; intros st H.
  - induction l as [|x l IH]; simpl; [by intros st H|].
    apply preserves_bind; [by intros st H|]. intros kv.
    apply preserves_bind; [apply B_setitem_str_keys|done].
  - apply Hitems.
Qed.

Lemma B_load_preserves (DATA_SETS : list pykey) (P : dict -> Prop)
    (self : loc) (conf_file : string) :
  (forall j,
     preserves P self (Pynacollada.update DATA_SETS self (of_json j) [])) ->
  preserves P self (Pynacollada.load DATA_SETS self conf_file).
Proof.
  intros H. apply preserves_bind.
  { apply preserves_same. apply open_read_state. }
  intros [j|]; intros st Hst; [|done].
  by apply (H j).
Qed.

(** [reset] starts from an empty store. *)
Lemma B_reset_establishes (DATA_SETS : list pykey) (P : dict -> Prop)
    (defaults : pyval) (self : loc) (st : process) :
  P [] ->
  preserves P self (Pynacollada.update DATA_SETS self defaults []) ->
  P (get_dict self (Pynacollada.reset DATA_SETS defaults self st).2).
Proof.
  intros Hnil Hupd. unfold Pynacollada.reset, bind. cbv beta iota.
  apply Hupd. by rewrite get_set_dict.
Qed.

Lemma B_new_first_preserves (DATA_SETS : list pykey) (P : dict -> Prop)
    (st : process) (conf_file : string) (dflt : pyval) :
  cls_instance st = None ->
  P [] ->
  (forall l, preserves P l (Pynacollada.update DATA_SETS l dflt [])) ->
  (forall l j,
     preserves P l (Pynacollada.update DATA_SETS l (of_json j) [])) ->
  let st' := (Pynacollada.__new__ DATA_SETS conf_file dflt st).2 in
  exists l, cls_instance st' = Some l /\ P (get_dict l st').
Proof.
  intros Hnone Hnil Hdflt Hupd st'. exists (fresh (dom (heap st))).
  split; [by apply B_new_first|].
  unfold st'. rewrite B_new_first_steps by done.
  match goal with
  | |- P (get_dict ?l (bind ?c ?k ?s).2) =>
      assert (preserves P l (bind c k)) as Hp
  end.
  { apply preserves_bind; [apply Hdflt|]. intros _.
    apply preserves_bind; [|by intros _ s Hs].
    intros s Hs. destruct (path_exists _ _); [|done].
    revert s Hs. apply (B_load_preserves DATA_SETS P _ conf_file).
    intros j. apply Hupd. }
  apply Hp. unfold get_dict. simpl. by rewrite lookup_insert_eq.
Qed.

(** X2. In Variant B, the keys of the store are strings, none repeated, and
    stay so through item assignment, deletion, [update] with any argument
    and [load] of any file, whether the call returns or raises; so
    [__iter__] yields distinct strings, as many as [__len__] says. [reset]
    and a first construction leave such a store whatever the inputs, and
    whatever the module-level [defaults] hold. *)
Theorem X2_store_keys (DATA_SETS : list pykey) (self : loc) (st : process) :
  (str_keys (get_dict self st) ->
   (forall key value,
      str_keys (get_dict self
                  (Pynacollada.__setitem__ DATA_SETS self key value st).2))
   /\ (forall key,
         str_keys (get_dict self (Pynacollada.__delitem__ self key st).2))
   /\ (forall other kwds,
         str_keys (get_dict self
                     (Pynacollada.update DATA_SETS self other kwds st).2))
   /\ (forall conf_file,
         str_keys (get_dict self
                     (Pynacollada.load DATA_SETS self conf_file st).2))
   /\ (exists ks,
         (Pynacollada.__iter__ self st).1 = Ok ks
         /\ (Pynacollada.__len__ self st).1 = Ok (length ks)
         /\ NoDup ks
         /\ Forall (fun k => exists s, k = KStr s) ks))
  /\ (forall defaults,
        str_keys (get_dict self
                    (Pynacollada.reset DATA_SETS defaults self st).2))
  /\ (forall conf_file dflt,
        cls_instance st = None ->
        let st' := (Pynacollada.__new__ DATA_SETS conf_file dflt st).2 in
        exists l, cls_instance st' = Some l /\ str_keys (get_dict l st')).
Proof.
  assert (str_keys []) as Hnil.
  { split; [apply NoDup_nil_2|apply Forall_nil_2]. }
  split; [|split].
  - intros H. split; [|split; [|split; [|split]]].
    + intros key value. by apply B_setitem_str_keys.
    + intros key. unfold Pynacollada.__delitem__.
      destruct (dict_get _ _); [|done].
      simpl. rewrite get_set_dict. by apply str_keys_del.
    + intros other kwds. by apply B_update_str_keys.
    + intros conf_file. apply B_load_preserves; [|done].
      intros j. apply B_update_str_keys.
    + exists (keys (get_dict self st)). split; [done|]. split.
      * simpl. unfold keys. by rewrite length_fmap.
      * apply H.
  - intros defaults. apply B_reset_establishes; [done|].
    apply B_update_str_keys.
  - intros conf_file dflt Hnone.
    apply B_new_first_preserves; [done|done| |].
    + intros l. apply B_update_str_keys.
    + intros l j. apply B_update_str_keys.
Qed.

Lemma X2_store_keys_witness :
  str_keys (get_dict 1%positive
              (Pynacollada.update [KStr "A"; KStr "B"] 1%positive
                 (VList [VList [VStr "note"; VInt 1]; VInt 3])
                 [("data_dir", VNone)] demo_B).2).
Proof.
  destruct (X2_store_keys [KStr "A"; KStr "B"] 1%positive demo_B)
    as [H _].
  apply H. split.
  - unfold dict_wf. apply (bool_decide_unpack _). reflexivity.
  - repeat constructor; by eexists.
Defined.

(** ** Variant B: the values under the two recognized keys *)

Lemma json_nested_ind (P : json -> Prop) :
  P JNull ->
  (forall b, P (JBool b)) ->
  (forall n, P (JNum n)) ->
  (forall s, P (JStr s)) ->
  (forall l, Forall P l -> P (JArr l)) ->
  (forall m, Forall (fun kv => P kv.2) m -> P (JObj m)) ->
  forall j, P j.
Proof.
  intros Hnull Hbool Hnum Hstr Harr Hobj.
  fix IH 1. intros [| b | n | s | l | m].
  - apply Hnull.
  - apply Hbool.
  - apply Hnum.
  - apply Hstr.
  - apply Harr. induction l as [|x l IHl]; constructor; [apply IH|apply IHl].
  - apply Hobj. induction m as [|[k x] m IHm]; constructor;
      [apply IH|apply IHm].
Qed.

Lemma forallb_Forall {A : Type} (f : A -> bool) (l : list A) :
  Forall (fun x => f x = true) l -> forallb f l = true.
Proof. induction 1 as [|x l Hx _ IH]; simpl; [done|]. by rewrite Hx, IH. Qed.

Lemma Forall_dict_set (R : pyval -> Prop) (d : dict) (k : pykey) (v : pyval) :
  Forall (fun kv => R kv.2) d -> R v ->
  Forall (fun kv => R kv.2) (dict_set d k v).
Proof.
  intros Hd Hv. induction Hd as [|[k' v'] d Hkv Hd IH]; simpl.
  - by constructor.
  - destruct (decide (k = k')); constructor; done.
Qed.

Lemma wf_val_dict (d : dict) :
  wf_val (VDict d) = true <->
  dict_wf d /\ Forall (fun kv => wf_val kv.2 = true) d.
Proof.
  simpl. rewrite andb_true_iff, bool_decide_eq_true. split.
  - intros [Hnd Hall]. split; [done|]. apply Forall_forall.
    intros kv Hkv. by apply (forallb_elem _ _ _ Hall).
  - intros [Hnd Hall]. split; [done|].
    by apply (forallb_Forall (fun kv => wf_val kv.2)).
Qed.

Lemma wf_val_value_wf (v : pyval) : wf_val v = true -> value_wf v.
Proof. destruct v; try done. intros H. by apply wf_val_dict in H as [? _]. Qed.

(** What [json.load] builds has no dictionary with a repeated key. *)
Lemma of_json_wf (j : json) : wf_val (of_json j) = true.
Proof.
  induction j as [| b | n | s | l IH | m IH] using json_nested_ind; try done.
  - simpl. apply forallb_Forall. by apply Forall_fmap.
  - change (of_json (JObj m)) with
      (VDict (foldl (fun acc kv => dict_set acc (KStr kv.1) kv.2) []
                ((fun kv => (kv.1, of_json kv.2)) <$> m))).
    apply wf_val_dict.
    assert (forall acc : dict,
              dict_wf acc /\ Forall (fun kv => wf_val kv.2 = true) acc ->
              let d := foldl (fun acc kv => dict_set acc (KStr kv.1) kv.2) acc
                         ((fun kv => (kv.1, of_json kv.2)) <$> m) in
              dict_wf d /\ Forall (fun kv => wf_val kv.2 = true) d) as Hfold.
    { induction IH as [|[k x] m Hx _ IHm]; intros acc Hacc; [done|].
      rewrite fmap_cons. cbn [foldl fst snd]. apply IHm.
      destruct Hacc as [Hwf Hall]. split; [by apply dict_set_wf|].
      by apply (Forall_dict_set (fun v => wf_val v = true)). }
    apply Hfold. split; [apply NoDup_nil_2|apply Forall_nil_2].
Qed.

Lemma unpack_pair_wf (e k v : pyval) :
  wf_val e = true -> Pynacollada.unpack_pair e = Ok (k, v) -> wf_val v = true.
Proof.
  intros Hwf. destruct e as [| | |s| |l|d]; try done.
  - destruct s as [|a [|b [|]]]; simpl; try done. by intros [= <- <-].
  - destruct l as [|a [|b [|c l]]]; simpl; try done. intros [= <- <-].
    simpl in Hwf. apply andb_prop in Hwf as [_ Hb].
    by apply andb_prop in Hb as [Hb _].
  - destruct d as [|[k1 v1] [|[k2 v2] [|kv d]]]; simpl; try done.
    intros [= <- <-]. by destruct k2.
Qed.

Lemma dict_get_del_ne (d : dict) (k k' : pykey) :
  k <> k' -> dict_get (dict_del d k) k' = dict_get d k'.
Proof.
  intros Hne. induction d as [|[k0 v0] d IH]; simpl; [done|].
  destruct (decide (k = k0)) as [->|Hk]; simpl.
  - by rewrite decide_False.
  - by rewrite IH.
Qed.

Lemma dict_get_del_eq (d : dict) (k : pykey) :
  dict_wf d -> dict_get (dict_del d k) k = None.
Proof.
  unfold dict_wf, keys. induction d as [|[k0 v0] d IH]; simpl; [done|].
  intros Hnd. apply NoDup_cons in Hnd as [Hnotin Hnd].
  destruct (decide (k = k0)) as [->|Hk]; simpl.
  - by apply dict_get_None.
  - rewrite decide_False by done. by apply IH.
Qed.

Section schema.

Variable DATA_SETS : list pykey.

Lemma schema_ok_set (d : dict) (k : string) (value v : pyval) :
  schema_ok DATA_SETS d ->
  value_wf value ->
  checked_value DATA_SETS k value = Ok v ->
  schema_ok DATA_SETS (dict_set d (KStr k) v).
Proof.
  intros [Hdir Huniq] Hwf. unfold checked_value.
  destruct (decide (k = "data_dir")) as [->|Hk1].
  { intros Hv. assert (isinstance_str v = true) as Hstr.
    { by destruct value; try done; injection Hv as <-. }
    split.
    - intros v0. rewrite dict_get_set_eq. by intros [= <-].
    - intros v0. rewrite dict_get_set_ne by done. apply Huniq. }
  destruct (decide (k = "unique_data_dir")) as [->|Hk2].
  { destruct value as [| | | | | |d0]; try done.
    pose proof (validate_items_spec DATA_SETS d0 Hwf) as Hspec.
    destruct (Pynacollada.validate_items _ _ _) as [d'|e]; [|done].
    destruct Hspec as [Hall ->]. intros [= <-]. split.
    - intros v0. rewrite dict_get_set_ne by done. apply Hdir.
    - intros v0. rewrite dict_get_set_eq. intros [= <-].
      exists (normalize_dict d0). split; [done|].
      unfold normalize_dict. apply Forall_fmap, Forall_forall.
      intros [k0 v0] Hin. simpl.
      pose proof (forallb_elem _ _ _ Hall Hin) as Hkv.
      unfold entry_ok in Hkv. simpl in Hkv.
      apply andb_prop in Hkv as [Hk0 Hv0].
      apply bool_decide_eq_true in Hk0. split; [done|].
      unfold normalize. by destruct v0. }
  intros [= <-]. split.
  - intros v0. rewrite dict_get_set_ne by congruence. apply Hdir.
  - intros v0. rewrite dict_get_set_ne by congruence. apply Huniq.
Qed.

Lemma B_setitem_schema (self : loc) (key value : pyval) :
  wf_val value = true ->
  preserves (schema_ok DATA_SETS) self
    (Pynacollada.__setitem__ DATA_SETS self key value).
Proof.
  intros Hwf st H. rewrite B_setitem_cases. destruct key; try done.
  destruct (checked_value _ _ _) eqn:Hv; [|done].
  simpl. rewrite get_set_dict.
  apply (schema_ok_set _ _ value); [done| |done]. by apply wf_val_value_wf.
Qed.

Lemma B_update_schema (self : loc) (other : pyval)
    (kwds : list (string * pyval)) :
  wf_val other = true ->
  Forall (fun kv => wf_val kv.2 = true) kwds ->
  preserves (schema_ok DATA_SETS) self
    (Pynacollada.update DATA_SETS self other kwds).
Proof.
  intros Hother Hkwds.
  assert (forall items,
            Forall (fun kv : pyval * pyval => wf_val kv.2 = true) items ->
            preserves (schema_ok DATA_SETS) self
              (Pynacollada.set_items DATA_SETS self items)) as Hitems.
  { intros items Hall. apply B_set_items_preserves.
    apply Forall_forall. intros kv Hkv. apply B_setitem_schema.
    by apply (proj1 (Forall_forall _ _) Hall). }
  apply preserves_bind.
  - destruct other as [| | |s| | l |d]; try (by intros st H).
    + by destruct s; intros st H.
    + simpl in Hother.
      assert (Forall (fun e => wf_val e = true) l) as Hl.
      { apply Forall_forall. intros e He. by apply (forallb_elem _ _ _ Hother). }
      clear Hother. induction Hl as [|e l He _ IH]; simpl; [by intros st H|].
      unfold lift at 1. intros st H. unfold bind at 1.
      destruct (Pynacollada.unpack_pair e) as [[k v]|err] eqn:Hun; [|done].
      revert st H. apply preserves_bind; [|done].
      apply B_setitem_schema. by apply (unpack_pair_wf e k v).
    + apply Hitems. apply wf_val_dict in Hother as [_ Hall].
      unfold Pynacollada.dict_items. by apply Forall_fmap.
  - intros _. apply Hitems. unfold Pynacollada.kwds_items.
    by apply Forall_fmap.
Qed.

End schema.

(** X3. In Variant B, once [data_dir] (when present) holds a string and
    [unique_data_dir] (when present) a dictionary from registered dataset
    names to strings, this stays so through item assignment, [update] with
    any argument, deletion and [load] of any file, also when the call
    raises after storing a part. [reset] and a first construction leave such
    a store whatever was there, and whatever the module-level [defaults]
    hold. The dictionaries in the submitted values have no repeated key,
    as Python dictionaries do. *)
Theorem X3_store_schema (DATA_SETS : list pykey) (self : loc) (st : process) :
  (dict_wf (get_dict self st) ->
   schema_ok DATA_SETS (get_dict self st) ->
   (forall key value,
      wf_val value = true ->
      schema_ok DATA_SETS
        (get_dict self
           (Pynacollada.__setitem__ DATA_SETS self key value st).2))
   /\ (forall key,
         schema_ok DATA_SETS
           (get_dict self (Pynacollada.__delitem__ self key st).2))
   /\ (forall other kwds,
         wf_val other = true ->
         Forall (fun kv => wf_val kv.2 = true) kwds ->
         schema_ok DATA_SETS
           (get_dict self
              (Pynacollada.update DATA_SETS self other kwds st).2))
   /\ (forall conf_file,
         schema_ok DATA_SETS
           (get_dict self
              (Pynacollada.load DATA_SETS self conf_file st).2)))
  /\ (forall defaults,
        wf_val defaults = true ->
        schema_ok DATA_SETS
          (get_dict self (Pynacollada.reset DATA_SETS defaults self st).2))
  /\ (forall conf_file dflt,
        cls_instance st = None ->
        wf_val dflt = true ->
        let st' := (Pynacollada.__new__ DATA_SETS conf_file dflt st).2 in
        exists l,
          cls_instance st' = Some l /\ schema_ok DATA_SETS (get_dict l st')).
Proof.
  split; [|split].
  - intros Hwf H. split; [|split; [|split]].
    + intros key value Hv. by apply B_setitem_schema.
    + intros key. unfold Pynacollada.__delitem__.
      destruct (dict_get _ _); [|done].
      simpl. rewrite get_set_dict. destruct H as [Hdir Huniq]. split.
      * intros v. destruct (decide (key = KStr "data_dir")) as [->|Hne].
        -- by rewrite dict_get_del_eq.
        -- rewrite dict_get_del_ne by done. apply Hdir.
      * intros v. destruct (decide (key = KStr "unique_data_dir")) as [->|Hne].
        -- by rewrite dict_get_del_eq.
        -- rewrite dict_get_del_ne by done. apply Huniq.
    + intros other kwds Hother Hkwds. by apply B_update_schema.
    + intros conf_file. apply B_load_preserves; [|done].
      intros j. apply B_update_schema; [apply of_json_wf|done].
  - intros defaults Hdefaults. apply B_reset_establishes.
    + split; by intros v.
    + by apply B_update_schema.
  - intros conf_file dflt Hnone Hdflt.
    apply B_new_first_preserves; [done| | |].
    + split; by intros v.
    + intros l. by apply B_update_schema.
    + intros l j. apply B_update_schema; [apply of_json_wf|done].
Qed.

Lemma X3_store_schema_witness :
  schema_ok [KStr "A"; KStr "B"]
    (get_dict 1%positive
       (Pynacollada.update [KStr "A"; KStr "B"] 1%positive
          (VDict [(KStr "unique_data_dir", VDict [(KStr "B", VPath "/b")]);
                  (KStr "data_dir", VInt 5)]) [] demo_B).2).
Proof.
  destruct (X3_store_schema [KStr "A"; KStr "B"] 1%positive demo_B)
    as [H _].
  destruct H as (_ & _ & Hupd & _).
  - unfold dict_wf. apply (bool_decide_unpack _). reflexivity.
  - split.
    + intros v. simpl. by intros [= <-].
    + intros v. simpl. intros [= <-]. by exists [].
  - apply Hupd; [reflexivity|constructor].
Defined.

(** ** Variant B: what a successful [update] stores *)








(** ** Variant B: deletion *)





(** ** Saving, then loading *)

Lemma dict_set_same (d : dict) (k : pykey) (v : pyval) :
  dict_get d k = Some v -> dict_set d k v = d.
Proof.
  induction d as [|[k' v'] d IH]; simpl; [done|].
  destruct (decide (k = k')) as [->|Hne].
  - by intros [= ->].
  - intros H. by rewrite IH.
Qed.

Lemma dict_update_same (d m : dict) :
  (forall k v, (k, v) ∈ m -> dict_get d k = Some v) -> dict_update d m = d.
Proof.
  induction m as [|[k v] m IH]; intros H; [done|].
  rewrite dict_update_cons, dict_set_same.
  - apply IH. intros k' v' Hin. apply H. by apply list_elem_of_further.
  - apply H. apply list_elem_of_here.
Qed.

Lemma dict_update_self (d : dict) : dict_wf d -> dict_update d d = d.
Proof.
  intros Hwf. apply dict_update_same. intros k v. by apply dict_get_elem.
Qed.




(** ** What [save] can do *)

Lemma mapM_has_path {A B : Type} (f : A -> result B) (hp : A -> bool)
    (l : list A) :
  Forall (fun x => match f x with
                   | Ok _ => hp x = false
                   | Raise e => e = TypeError /\ hp x = true
                   end) l ->
  match mapM f l with
  | Ok _ => existsb hp l = false
  | Raise e => e = TypeError /\ existsb hp l = true
  end.
Proof.
  induction 1 as [|x l Hx _ IH]; simpl; [done|].
  destruct (f x) as [y|e].
  - rewrite Hx. simpl. by destruct (mapM f l).
  - destruct Hx as [-> ->]. done.
Qed.

(** [json.dump] fails on the values that have a path-like object in them,
    with [TypeError], and on no other. *)
Lemma to_json_has_path (v : pyval) :
  match to_json v with
  | Ok _ => has_path v = false
  | Raise e => e = TypeError /\ has_path v = true
  end.
Proof.
  induction v as [| b | n | s | s | l IH | d IH] using pyval_nested_ind;
    try done.
  - pose proof (mapM_has_path to_json has_path l IH) as H. simpl.
    by destruct (mapM to_json l).
  - pose proof (mapM_has_path
                  (fun kv : pykey * pyval =>
                     match to_json kv.2 with
                     | Ok j => Ok (key_json kv.1, j)
                     | Raise e => Raise e
                     end)
                  (fun kv => has_path kv.2) d) as H.
    simpl.
    destruct (mapM _ d); apply H; (eapply Forall_impl; [exact IH|]);
      intros [k x] Hx; simpl in *; by destruct (to_json x).
Qed.

(** X7. [save] raises [OSError], and changes nothing, when the path names
    a directory or cannot be written. Otherwise it returns, and the file
    holds the JSON document of the store, exactly when no value of the
    store has a path-like object in it; when one has, [save] raises
    [TypeError], the store is as it was, and the file is left with a text
    that is no JSON document, so that a [load] of it raises
    [JSONDecodeError] and changes nothing. *)
Theorem X7_save_outcomes (DATA_SETS : list pykey) (self : loc)
    (path : string) (st : process) :
  (fs_isdir (fs st) path = true \/ fs_writable (fs st) path = false ->
   Pynacollada.save self path st = (Raise OSError, st)
   /\ NeuroTutorials.save self path st = (Raise OSError, st))
  /\ (fs_isdir (fs st) path = false -> fs_writable (fs st) path = true ->
      let r := Pynacollada.save self path st in
      NeuroTutorials.save self path st = r
      /\ heap r.2 = heap st
      /\ (has_path (VDict (get_dict self st)) = false ->
          exists j,
            to_json (VDict (get_dict self st)) = Ok j
            /\ r.1 = Ok tt
            /\ fs_file (fs r.2) path = Some (Document j))
      /\ (has_path (VDict (get_dict self st)) = true ->
          r.1 = Raise TypeError
          /\ fs_file (fs r.2) path = Some Unparseable
          /\ (fs_readable (fs st) path = true ->
              Pynacollada.load DATA_SETS self path r.2
                = (Raise JSONDecodeError, r.2)
              /\ NeuroTutorials.load self path r.2
                 = (Raise JSONDecodeError, r.2)))).
Proof.
  split.
  - intros H. unfold NeuroTutorials.save, Pynacollada.save, open_write_dump.
    destruct H as [-> | ->]; [done|]. by rewrite orb_true_r.
  - intros Hdir Hwr r. split; [done|].
    unfold r, Pynacollada.save, open_write_dump.
    rewrite Hdir, Hwr. simpl orb. cbv iota.
    pose proof (to_json_has_path (VDict (get_dict self st))) as Hto.
    destruct (to_json (VDict (get_dict self st))) as [j|e].
    + split; [done|]. split.
      * intros _. exists j. split; [done|]. split; [done|].
        simpl. by rewrite decide_True.
      * intros Hp. congruence.
    + destruct Hto as [-> Hp]. split; [done|]. split; [congruence|].
      intros _. split; [done|]. split.
      { simpl. by rewrite decide_True. }
      intros Hrd.
      unfold Pynacollada.load, NeuroTutorials.load, bind, open_read. simpl.
      by rewrite Hdir, decide_True, Hrd.
Qed.

Lemma X7_save_outcomes_witness :
  let st := (Pynacollada.__setitem__ [KStr "A"; KStr "B"] 1%positive
               (VStr "note") (VList [VPath "/p"]) demo_B).2 in
  let r := Pynacollada.save 1%positive "/data/conf.json" st in
  r.1 = Raise TypeError
  /\ fs_file (fs r.2) "/data/conf.json" = Some Unparseable
  /\ Pynacollada.save 1%positive "/data" st = (Raise OSError, st).
Proof.
  intros st r.
  destruct (X7_save_outcomes [KStr "A"; KStr "B"] 1%positive
              "/data/conf.json" st) as [_ H].
  destruct (H eq_refl eq_refl) as (_ & _ & _ & Hbad).
  destruct (Hbad eq_refl) as (H1 & H2 & _).
  split; [exact H1|]. split; [exact H2|].
  destruct (X7_save_outcomes [KStr "A"; KStr "B"] 1%positive "/data" st)
    as [Hos _].
  apply Hos. left. reflexivity.
Defined.

(** ** What [load] can do *)



(** ** Variant A: construction and item assignment *)

(** X9. In Variant A, a first construction that raises has already put the
    new object in [Config._instance], with an empty store: every later
    construction returns that object without initializing it, and every
    lookup on it raises [KeyError]. *)
Theorem X9_failed_construction (st st' : process) (conf_file : string)
    (dflt : pyval) (e : exn) :
  cls_instance st = None ->
  NeuroTutorials.__new__ conf_file dflt st = (Raise e, st') ->
  let l := fresh (dom (heap st)) in
  cls_instance st' = Some l
  /\ get_dict l st' = []
  /\ (forall conf_file' dflt',
        NeuroTutorials.__new__ conf_file' dflt' st' = (Ok l, st'))
  /\ (forall key, NeuroTutorials.__getitem__ l key st' = (Raise KeyError, st')).
Proof.
  intros Hnone Hnew l.
  rewrite A_new_first_steps in Hnew by done. fold l in Hnew.
  set (s0 := {| cls_instance := Some l; heap := <[l := []]> (heap st);
                fs := fs st |}) in *.
  assert (st' = s0) as ->.
  { unfold bind at 1 in Hnew.
    destruct (path_exists (fs s0) conf_file).
    - unfold bind at 1 in Hnew.
      pose proof (open_read_state conf_file s0) as Hopen.
      destruct (open_read conf_file s0) as [[c|e0] s1]; simpl in Hopen;
        subst s1; [|by injection Hnew as _ <-].
      destruct c as [j|]; simpl in Hnew; [|by injection Hnew as _ <-].
      unfold bind in Hnew.
      destruct (NeuroTutorials.update l (of_json j) s0) as [[[]|e1] s2]
        eqn:Hupd; [done|].
      injection Hnew as _ <-. by apply A_update_raise in Hupd.
    - unfold bind in Hnew.
      destruct (NeuroTutorials.update l dflt s0) as [[[]|e1] s2] eqn:Hupd;
        [done|].
      injection Hnew as _ <-. by apply A_update_raise in Hupd. }
  assert (get_dict l s0 = []) as Hempty.
  { unfold get_dict. simpl. by rewrite lookup_insert_eq. }
  split; [done|]. split; [done|]. split.
  - intros conf_file' dflt'. by apply A_new_again.
  - intros key. unfold NeuroTutorials.__getitem__. by rewrite Hempty.
Qed.

Lemma X9_failed_construction_witness :
  let st' := (NeuroTutorials.__new__ "/data/notes.txt" VNone
                (fresh_process fs_demo)).2 in
  NeuroTutorials.__new__ NeuroTutorials.LOCALCONFIG
    (NeuroTutorials.defaults fs_demo "/home/user") st' = (Ok 1%positive, st')
  /\ NeuroTutorials.__getitem__ 1%positive (KStr "data_path") st'
     = (Raise KeyError, st').
Proof.
  intros st'.
  destruct (X9_failed_construction (fresh_process fs_demo) st'
              "/data/notes.txt" VNone JSONDecodeError eq_refl eq_refl)
    as (_ & _ & Hnew & Hget).
  split; [apply Hnew|apply Hget].
Defined.

(** X10. In Variant A, the construction that the module makes when it is
    imported, with the module's own [defaults], returns whenever the
    working directory exists and holds no local configuration file: the
    store then has the one key ["data_path"], whose value is the
    subdirectory [data] of the working directory when that exists, and the
    working directory otherwise. *)
Theorem X10_import (st : process) (cwd : string) :
  cls_instance st = None ->
  path_exists (fs st) NeuroTutorials.LOCALCONFIG = false ->
  path_exists (fs st) cwd = true ->
  let l := fresh (dom (heap st)) in
  let p := if path_exists (fs st) (os_path_join cwd "data")
           then os_path_join cwd "data" else cwd in
  exists st',
    NeuroTutorials.__new__ NeuroTutorials.LOCALCONFIG
      (NeuroTutorials.defaults (fs st) cwd) st = (Ok l, st')
    /\ cls_instance st' = Some l
    /\ get_dict l st' = [(KStr "data_path", VStr p)]
    /\ path_exists (fs st') p = true.
Proof.
  intros Hnone Hno Hcwd l p. eexists.
  rewrite A_new_first_steps by done. fold l. unfold bind. simpl.
  rewrite Hno, A_update_cases. unfold NeuroTutorials.defaults.
  cbn [dict_get]. rewrite decide_True by done. simpl fs.
  cbn [os_path_exists]. unfold NeuroTutorials.data_path. fold p.
  assert (path_exists (fs st) p = true) as Hp.
  { unfold p. by destruct (path_exists (fs st) (os_path_join cwd "data")) eqn:H. }
  rewrite Hp. split; [done|]. split; [done|]. split; [|done].
  rewrite get_set_dict. unfold get_dict. simpl. by rewrite lookup_insert_eq.
Qed.

Lemma X10_import_witness :
  exists st',
    NeuroTutorials.__new__ NeuroTutorials.LOCALCONFIG
      (NeuroTutorials.defaults fs_demo "/home/user") (fresh_process fs_demo)
    = (Ok 1%positive, st')
    /\ get_dict 1%positive st' = [(KStr "data_path", VStr "/home/user")].
Proof.
  destruct (X10_import (fresh_process fs_demo) "/home/user" eq_refl eq_refl)
    as (st' & Hnew & _ & Hget & _).
  - reflexivity.
  - exists st'. split; [exact Hnew|exact Hget].
Defined.



(** ** Variant B: the construction made at import *)

(** X12. In Variant B, the construction with the module's own [defaults]
    returns and stores exactly these, for every registry and on every file
    system, when there is no local configuration file. When the local
    configuration file is there but holds no JSON document, the
    construction raises [JSONDecodeError] after the defaults have been
    stored: the object is in [Config._instance], and later constructions
    return it with the defaults in its store. *)
Theorem X12_import (DATA_SETS : list pykey) (DEFAULT_DIR : string)
    (st : process) (conf_file : string) :
  cls_instance st = None ->
  let l := fresh (dom (heap st)) in
  let r := Pynacollada.__new__ DATA_SETS conf_file
             (Pynacollada.defaults DEFAULT_DIR) st in
  let d0 := [(KStr "data_dir", VStr DEFAULT_DIR);
             (KStr "unique_data_dir", VDict [])] in
  (path_exists (fs st) conf_file = false ->
   r.1 = Ok l /\ cls_instance r.2 = Some l /\ get_dict l r.2 = d0)
  /\ (fs_isdir (fs st) conf_file = false ->
      fs_readable (fs st) conf_file = true ->
      fs_file (fs st) conf_file = Some Unparseable ->
      r.1 = Raise JSONDecodeError
      /\ cls_instance r.2 = Some l
      /\ get_dict l r.2 = d0
      /\ forall conf_file' dflt,
           Pynacollada.__new__ DATA_SETS conf_file' dflt r.2 = (Ok l, r.2)).
Proof.
  intros Hnone l r d0.
  set (s0 := {| cls_instance := Some l; heap := <[l := []]> (heap st);
                fs := fs st |}).
  assert (is_Some (heap s0 !! l)) as Hl.
  { simpl. rewrite lookup_insert_eq. by eexists. }
  assert (get_dict l s0 = []) as Hempty.
  { unfold get_dict. simpl. by rewrite lookup_insert_eq. }
  assert (checked_dict DATA_SETS d0 = Ok d0) as Hd0 by reflexivity.
  assert (r = ((fun st' =>
                  if path_exists (fs st') conf_file
                  then (c <- open_read conf_file ;;
                        conf <- json_load c ;;
                        Pynacollada.update DATA_SETS l conf []) st'
                  else (Ok tt, st')) ;;;
               ret l) (set_dict l d0 s0)) as Hr.
  { unfold r. rewrite B_new_first_steps by done. fold l s0.
    unfold bind at 1. unfold Pynacollada.defaults. fold d0.
    rewrite (B_update_checked _ _ _ _ _ Hl Hd0). by rewrite Hempty. }
  split.
  - intros Hno. rewrite Hr. unfold bind. simpl fs. rewrite Hno. simpl.
    split; [done|]. split; [done|]. by rewrite get_set_dict.
  - intros Hdir Hrd Hfile. rewrite Hr. unfold bind, open_read. simpl fs.
    rewrite (path_exists_file _ _ _ Hfile), Hdir, Hfile, Hrd. simpl.
    split; [done|]. split; [done|]. split; [by rewrite get_set_dict|].
    intros conf_file' dflt. by apply B_new_again.
Qed.

Lemma X12_import_witness :
  let r := Pynacollada.__new__ [KStr "A"; KStr "B"] "/data/notes.txt"
             (Pynacollada.defaults "/cache") (fresh_process fs_demo) in
  r.1 = Raise JSONDecodeError
  /\ get_dict 1%positive r.2
     = [(KStr "data_dir", VStr "/cache"); (KStr "unique_data_dir", VDict [])]
  /\ Pynacollada.__new__ [KStr "A"; KStr "B"] Pynacollada.LOCAL_CONFIG
       (Pynacollada.defaults "/cache") r.2 = (Ok 1%positive, r.2).
Proof.
  intros r.
  destruct (X12_import [KStr "A"; KStr "B"] "/cache" (fresh_process fs_demo)
              "/data/notes.txt" eq_refl) as [_ H].
  destruct (H eq_refl eq_refl eq_refl) as (H1 & _ & H2 & H3).
  split; [exact H1|]. split; [exact H2|apply H3].
Defined.

(** ** Variant B: [reset] *)





